(** * Smart Pet Adoption Shelter: request handlers and compatibility scorer

    A shallow embedding of [smart_petadoption.py]: the decoded JSON values
    the handlers receive, the three SQLite tables, the six API handlers and
    the two HTTP entry points [do_GET] and [do_POST].  Python exceptions are
    values of an error monad; the database is passed explicitly. *)

From Stdlib Require Import ZArith List String Ascii Bool Lia DecimalString.
From Stdlib Require Import Permutation Sorted PrimFloat.
Import ListNotations.
Open Scope string_scope.
Open Scope list_scope.
Open Scope Z_scope.

(** ** Python values *)

(** What [json.loads] produces: [None], [bool], [int], [float], [str],
    [list] and [dict].  A [str] is kept as its UTF-8 bytes ([JStr]); a
    [str] that has no UTF-8 encoding, which [json.loads] makes from an
    escaped lone surrogate such as [\ud800], is [JStrNotUtf8] and carries
    the text of the [UnicodeEncodeError] that encoding it raises.  A
    [dict] is kept as its items in insertion order; [json.loads] leaves
    one item per key, and the handlers look up literal keys only. *)
#[warnings="-register-all"]
Inductive json : Type :=
| JNull
| JBool (b : bool)
| JInt (n : Z)
| JFloat (f : float)
| JStr (s : string)
| JStrNotUtf8 (error : string)
| JList (l : list json)
| JDict (items : list (string * json)).

(** Exception classes that the handlers can meet. *)
Inductive exn_class : Type :=
| AttributeError
| KeyError
| TypeError
| ValueError
| OverflowError
| JSONDecodeError
| IntegrityError
| ProgrammingError
| UnicodeEncodeError.

(** An exception: its class and [str(e)]. *)
Record exn : Type := mkExn { exn_cls : exn_class; exn_str : string }.

Inductive result (A : Type) : Type :=
| Ok (a : A)
| Raise (e : exn).
Arguments Ok {A} a.
Arguments Raise {A} e.

Definition bind {A B : Type} (r : result A) (k : A -> result B) : result B :=
  match r with
  | Ok a => k a
  | Raise e => Raise e
  end.

Notation "x <- r ;; k" := (bind r (fun x => k))
  (at level 61, r at next level, right associativity).

(** [try: body except Exception as e: handler(e)]. *)
Definition try_except {A : Type} (body : result A) (handler : exn -> A) : A :=
  match body with
  | Ok a => a
  | Raise e => handler e
  end.

Fixpoint assoc (k : string) (items : list (string * json)) : option json :=
  match items with
  | [] => None
  | (k', v) :: rest => if String.eqb k k' then Some v else assoc k rest
  end.

(** [type(v).__name__]. *)
Definition py_type_name (v : json) : string :=
  match v with
  | JNull => "NoneType"
  | JBool _ => "bool"
  | JInt _ => "int"
  | JFloat _ => "float"
  | JStr _ | JStrNotUtf8 _ => "str"
  | JList _ => "list"
  | JDict _ => "dict"
  end.

(** The [AttributeError] for [v.attr] when [v] has no such attribute. *)
Definition no_attribute (v : json) (attr : string) : exn :=
  mkExn AttributeError
    (String.append "'"
       (String.append (py_type_name v)
          (String.append "' object has no attribute '"
             (String.append attr "'")))).

(** [data.get(key)]: the value, [None] when the key is absent, and an
    [AttributeError] when [data] is not a [dict]. *)
Definition py_get (data : json) (key : string) : result json :=
  match data with
  | JDict items =>
      match assoc key items with
      | Some v => Ok v
      | None => Ok JNull
      end
  | _ => Raise (no_attribute data "get")
  end.

(** [data[key]]: [KeyError] when the key is absent, [TypeError] when [data]
    cannot be indexed by a string. *)
Definition py_getitem (data : json) (key : string) : result json :=
  match data with
  | JDict items =>
      match assoc key items with
      | Some v => Ok v
      | None =>
          Raise (mkExn KeyError (String.append "'" (String.append key "'")))
      end
  | JList _ =>
      Raise (mkExn TypeError "list indices must be integers or slices, not str")
  | JStr _ | JStrNotUtf8 _ =>
      Raise (mkExn TypeError "string indices must be integers, not 'str'")
  | _ =>
      Raise (mkExn TypeError
               (String.append "'"
                  (String.append (py_type_name data)
                     "' object is not subscriptable")))
  end.

(** [v == s] for a string literal [s]: only a [str] with the same
    characters is equal to it. *)
Definition py_eq_str (v : json) (s : string) : bool :=
  match v with
  | JStr t => String.eqb t s
  | _ => false
  end.

(** ** The compatibility scorer *)

(** The row that [SELECT species, activity_level, age_months] returns. *)
Record pet_traits : Type := mkTraits {
  species : string;
  activity_level : string;
  age_months : Z
}.

(** The locals of [handle_compatibility_check] read from the request. *)
Record applicant : Type := mkApplicant {
  has_yard : bool;
  has_children : bool;
  has_other_pets : bool;
  experience_level : json
}.

Definition yard_penalty_reason := "High-energy pets benefit from having a yard".
Definition yard_match_reason := "Great match! This pet will love your yard".
Definition beginner_reason := "High-energy pets may be challenging for beginners".
Definition experienced_reason := "Your experience is perfect for any pet".
Definition young_reason := "Young pets may need extra supervision around children".
Definition family_reason := "This pet's age is good for families with children".
Definition dog_reason := "Dogs usually adapt well to other pets".
Definition cat_reason := "Cats may need gradual introduction to other pets".

Definition excellent_message := "Excellent match! This pet would be perfect for you.".
Definition good_message := "Good match! This pet would fit well in your home.".
Definition fair_message := "Fair match. Consider the factors below carefully.".
Definition poor_message :=
  "This pet may not be the best fit, but adoption is always possible with proper preparation.".

(** The mutable locals [score] and [reasons]. *)
Definition scoring : Type := (Z * list string)%type.

(** Lines 236-259: the four [if] statements, each one updating [score] and
    [reasons] in place. *)
Definition accumulate (pet : pet_traits) (a : applicant) : scoring :=
  let st : scoring := (100, []) in
  let st : scoring :=
    let '(score, reasons) := st in
    if String.eqb (activity_level pet) "High" && negb (has_yard a) then
      (score - 20, reasons ++ [yard_penalty_reason])
    else if String.eqb (activity_level pet) "High" && has_yard a then
      (score, reasons ++ [yard_match_reason])
    else (score, reasons) in
  let st : scoring :=
    let '(score, reasons) := st in
    if py_eq_str (experience_level a) "Beginner"
       && String.eqb (activity_level pet) "High" then
      (score - 15, reasons ++ [beginner_reason])
    else if py_eq_str (experience_level a) "Experienced" then
      (score + 10, reasons ++ [experienced_reason])
    else (score, reasons) in
  let st : scoring :=
    let '(score, reasons) := st in
    if has_children a && (age_months pet <? 12) then
      (score - 10, reasons ++ [young_reason])
    else if has_children a then
      (score, reasons ++ [family_reason])
    else (score, reasons) in
  let st : scoring :=
    let '(score, reasons) := st in
    if has_other_pets a then
      if String.eqb (species pet) "Dog" then
        (score, reasons ++ [dog_reason])
      else
        (score - 5, reasons ++ [cat_reason])
    else (score, reasons) in
  st.

(** Line 260: [score = max(0, min(100, score))]. *)
Definition clamp (score : Z) : Z := Z.max 0 (Z.min 100 score).

(** Lines 261-268: the message for a clamped score. *)
Definition select_message (score : Z) : string :=
  if score >=? 80 then excellent_message
  else if score >=? 60 then good_message
  else if score >=? 40 then fair_message
  else poor_message.

(** The three scored fields of the response. *)
Record compatibility : Type := mkCompat {
  compatibility_percentage : Z;
  message : string;
  reasons : list string
}.

Definition score_pet (pet : pet_traits) (a : applicant) : compatibility :=
  let '(score, reasons) := accumulate pet a in
  let score := clamp score in
  mkCompat score (select_message score) reasons.

(** ** The scoring algorithm as the specification words it *)

Module Spec.

(** One numbered step of the algorithm: the change of the score and the
    reason it emits, if any. *)
Definition step : Type := (Z * option string)%type.

Definition high (pet : pet_traits) : bool :=
  String.eqb (activity_level pet) "High".

(** Step 2: the yard. *)
Definition yard_step (pet : pet_traits) (a : applicant) : step :=
  match high pet, has_yard a with
  | true, false => (-20, Some "High-energy pets benefit from having a yard")
  | true, true => (0, Some "Great match! This pet will love your yard")
  | false, _ => (0, None)
  end.

(** Step 3: the experience level. *)
Definition experience_is (a : applicant) (level : string) : bool :=
  match experience_level a with
  | JStr s => String.eqb s level
  | _ => false
  end.

Definition experience_step (pet : pet_traits) (a : applicant) : step :=
  if experience_is a "Beginner" && high pet then
    (-15, Some "High-energy pets may be challenging for beginners")
  else if experience_is a "Experienced" then
    (10, Some "Your experience is perfect for any pet")
  else (0, None).

(** Step 4: children. *)
Definition children_step (pet : pet_traits) (a : applicant) : step :=
  if has_children a then
    if Z.ltb (age_months pet) 12 then
      (-10, Some "Young pets may need extra supervision around children")
    else (0, Some "This pet's age is good for families with children")
  else (0, None).

(** Step 5: other pets. *)
Definition other_pets_step (pet : pet_traits) (a : applicant) : step :=
  if has_other_pets a then
    if String.eqb (species pet) "Dog" then
      (0, Some "Dogs usually adapt well to other pets")
    else (-5, Some "Cats may need gradual introduction to other pets")
  else (0, None).

Definition steps (pet : pet_traits) (a : applicant) : list step :=
  [yard_step pet a; experience_step pet a; children_step pet a;
   other_pets_step pet a].

(** Step 1 and the sum of the changes. *)
Definition raw_score (pet : pet_traits) (a : applicant) : Z :=
  fold_right Z.add 100 (map fst (steps pet a)).

Definition emitted (o : option string) : list string :=
  match o with
  | Some r => [r]
  | None => []
  end.

(** Step 6. *)
Definition clamp_0_100 (s : Z) : Z :=
  if s <? 0 then 0 else if 100 <? s then 100 else s.

(** Step 7. *)
Definition message_for (s : Z) : string :=
  if 80 <=? s then "Excellent match! This pet would be perfect for you."
  else if 60 <=? s then "Good match! This pet would fit well in your home."
  else if 40 <=? s then "Fair match. Consider the factors below carefully."
  else "This pet may not be the best fit, but adoption is always possible with proper preparation.".

Definition score (pet : pet_traits) (a : applicant) : compatibility :=
  let percentage := clamp_0_100 (raw_score pet a) in
  mkCompat percentage (message_for percentage)
    (flat_map (fun s : step => emitted (snd s)) (steps pet a)).

End Spec.

(** ** SQLite values and the three tables *)

(** A value bound to a [?] placeholder or stored in a column. *)
Inductive sqlval : Type :=
| SNull
| SInt (n : Z)
| SReal (f : float)
| SText (s : string).

(** The decimal digits of a parameter's position. *)
Definition decimal (n : Z) : string := NilZero.string_of_int (Z.to_int n).

(** How [sqlite3] (Python 3.11) binds the Python value [v] to the
    parameter at position [pos], counted from 1.  A [bool] is an [int]; an
    [int] outside 64 bits raises [OverflowError]; a NaN is bound as
    [NULL]; a [str] is encoded as UTF-8, which raises [UnicodeEncodeError]
    when it has no encoding; a [list] or a [dict] raises
    [sqlite3.ProgrammingError]. *)
Definition sql_bind (pos : Z) (v : json) : result sqlval :=
  match v with
  | JNull => Ok SNull
  | JBool b => Ok (SInt (if b then 1 else 0))
  | JInt n =>
      if (- 2 ^ 63 <=? n) && (n <? 2 ^ 63) then Ok (SInt n)
      else Raise (mkExn OverflowError
                    "Python int too large to convert to SQLite INTEGER")
  | JFloat f => Ok (if PrimFloat.is_nan f then SNull else SReal f)
  | JStr s => Ok (SText s)
  | JStrNotUtf8 error => Raise (mkExn UnicodeEncodeError error)
  | JList _ | JDict _ =>
      Raise (mkExn ProgrammingError
               (String.append "Error binding parameter "
                  (String.append (decimal pos)
                     (String.append ": type '"
                        (String.append (py_type_name v)
                           "' is not supported")))))
  end.

Record user_row : Type := mkUser {
  user_id : Z;
  username : string;
  email : string;
  password_hash : string;
  user_type : string;
  user_created_at : string
}.

Record animal_row : Type := mkAnimal {
  animal_id : Z;
  name : string;
  animal_species : string;
  breed : string;
  color : string;
  animal_age_months : Z;
  gender : string;
  vaccinated : Z;
  animal_activity_level : string;
  weight_kg : float;
  description : option string;
  profile_photo_url : option string;
  animal_created_at : string
}.

Record application_row : Type := mkApplication {
  application_id : Z;
  app_adopter_id : sqlval;
  app_animal_id : sqlval;
  adopter_name : string;
  pet_name : string;
  status : string;
  applied_at : string
}.

(** The file [pets.db]: the rows of each table in rowid order and the last
    identifier that [AUTOINCREMENT] handed out for each table. *)
Record database : Type := mkDb {
  users : list user_row;
  animals : list animal_row;
  adoption_applications : list application_row;
  seq_users : Z;
  seq_animals : Z;
  seq_applications : Z
}.

Definition empty_db : database := mkDb [] [] [] 0 0 0.

Definition integrity_error (msg : string) : exn := mkExn IntegrityError msg.

(** Python's [in] over a tuple of string literals, as the [CHECK (c IN
    (...))] constraints use it. *)
Definition mem_string (s : string) (l : list string) : bool :=
  existsb (String.eqb s) l.

(** ** JSON responses *)

Definition failure (msg : string) : json :=
  JDict [("success", JBool false); ("message", JStr msg)].

Definition success : json := JDict [("success", JBool true)].

Definition json_of_option_string (o : option string) : json :=
  match o with
  | Some s => JStr s
  | None => JNull
  end.

(** ** [ORDER BY applied_at DESC] *)

(** The timestamps are [TEXT]; SQLite orders them byte by byte. *)
Definition newer_or_same (a b : application_row) : bool :=
  String.leb (applied_at b) (applied_at a).

Fixpoint insert_desc (x : application_row) (sorted : list application_row)
  : list application_row :=
  match sorted with
  | [] => [x]
  | y :: rest =>
      if newer_or_same y x then y :: insert_desc x rest
      else x :: y :: rest
  end.

(** Rows are taken in rowid order; a row goes after the rows that are at
    least as new. *)
Definition order_by_applied_at_desc (rows : list application_row)
  : list application_row :=
  fold_left (fun sorted x => insert_desc x sorted) rows [].

(** [a] was submitted no earlier than [b]. *)
Definition newest_first (a b : application_row) : Prop :=
  String.leb (applied_at b) (applied_at a) = true.

(** ** The page's script *)

Section Page.

(** A pet as [/api/pets] delivers it to the page and [allPets] holds it. *)
Record pet : Type := mkPet {
  pet_id : Z;
  pet_name' : string;
  pet_species : string;
  pet_breed : string;
  pet_color : string;
  pet_age_months : Z;
  pet_gender : string;
  pet_vaccinated : bool;
  pet_activity_level : string;
  pet_weight_kg : float;
  pet_description : option string;
  pet_profile_photo_url : option string
}.

(** The object that [handle_get_pets] builds for one row. *)
Definition pet_of_row (row : animal_row) : pet :=
  mkPet (animal_id row) (name row) (animal_species row) (breed row)
    (color row) (animal_age_months row) (gender row)
    (negb (vaccinated row =? 0)) (animal_activity_level row) (weight_kg row)
    (description row) (profile_photo_url row).


(** The values of the eight filter controls. *)
Record filter_form : Type := mkFilters {
  filterSpecies : string;
  filterBreed : string;
  filterColor : string;
  filterMinAge : string;
  filterMaxAge : string;
  filterGender : string;
  filterVaccinated : string;
  filterActivity : string
}.

(** [parseInt(s)]: [None] is [NaN].  [s.toLowerCase()]. *)
Variable js_parseInt : string -> option Z.
Variable js_toLowerCase : string -> string.

(** [parseInt(s) || d]: [NaN] and [0] are falsy. *)
Definition parseInt_or (s : string) (d : Z) : Z :=
  match js_parseInt s with
  | Some n => if n =? 0 then d else n
  | None => d
  end.

(** [s.includes(sub)]. *)
Fixpoint includes (s sub : string) : bool :=
  String.prefix sub s
  || match s with
     | EmptyString => false
     | String _ rest => includes rest sub
     end.

(** [!s] for a string: only the empty string is falsy. *)
Definition js_not (s : string) : bool := String.eqb s "".

(** [b.toString()] for a boolean. *)
Definition bool_toString (b : bool) : string :=
  if b then "true" else "false".

(** Lines 974-1002: the new value of [filteredPets]. *)
Definition applyFilters (f : filter_form) (allPets : list pet) : list pet :=
  let speciesFilter := filterSpecies f in
  let breedFilter := js_toLowerCase (filterBreed f) in
  let colorFilter := js_toLowerCase (filterColor f) in
  let minAge := parseInt_or (filterMinAge f) 0 in
  let maxAge := parseInt_or (filterMaxAge f) 999 in
  let genderFilter := filterGender f in
  let vaccinatedFilter := filterVaccinated f in
  let activityFilter := filterActivity f in
  filter (fun p =>
            (js_not speciesFilter || String.eqb (pet_species p) speciesFilter)
            && (js_not breedFilter
                || includes (js_toLowerCase (pet_breed p)) breedFilter)
            && (js_not colorFilter
                || includes (js_toLowerCase (pet_color p)) colorFilter)
            && (pet_age_months p >=? minAge)
            && (pet_age_months p <=? maxAge)
            && (js_not genderFilter || String.eqb (pet_gender p) genderFilter)
            && (js_not vaccinatedFilter
                || String.eqb (bool_toString (pet_vaccinated p))
                     vaccinatedFilter)
            && (js_not activityFilter
                || String.eqb (pet_activity_level p) activityFilter))
    allPets.

(** Lines 1004-1018: [clearFilters] empties the eight controls and shows
    [allPets]. *)
Definition cleared : filter_form := mkFilters "" "" "" "" "" "" "" "".

Definition clearFilters (allPets : list pet) : filter_form * list pet :=
  (cleared, allPets).

(** Lines 867-869: the colour of the displayed score. *)
Definition colorClass (score : Z) : string :=
  if score >=? 80 then "text-success"
  else if score >=? 60 then "text-primary"
  else if score >=? 40 then "text-warning"
  else "text-danger".

(** Lines 949-950: the badge of a request's status. *)
Definition statusClass (status' : string) : string :=
  if String.eqb status' "approved" then "bg-success"
  else if String.eqb status' "rejected" then "bg-danger"
  else "bg-warning".

End Page.

(** ** The handlers *)

Section Handlers.

(** Library functions that the program calls and does not define. *)

(** [hashlib.sha256(s.encode()).hexdigest()]. *)
Variable sha256_hexdigest : string -> string.
(** [int(v)] and [float(v)]. *)
Variable py_int : json -> result Z.
Variable py_float : json -> result float.
(** [json.loads(bytes.decode('utf-8'))]. *)
Variable json_loads : string -> result json.
(** The text that SQLite stores when a number goes into a [TEXT] column. *)
Variable sqlite_text : sqlval -> string.
(** What SQLite stores when a [REAL] or [TEXT] goes into an [INTEGER]
    column. *)
Variable sqlite_integer_affinity : sqlval -> sqlval.
(** SQLite's [=] between an [INTEGER] column and a [REAL] or [TEXT]
    parameter. *)
Variable sqlite_eq_integer : sqlval -> Z -> bool.

(** [TEXT] affinity: [None] stands for [NULL]. *)
Definition text_affinity (v : sqlval) : option string :=
  match v with
  | SNull => None
  | SText s => Some s
  | SInt _ | SReal _ => Some (sqlite_text v)
  end.

Definition integer_affinity (v : sqlval) : sqlval :=
  match v with
  | SNull | SInt _ => v
  | SReal _ | SText _ => sqlite_integer_affinity v
  end.

(** [column = ?] for a [TEXT] column. *)
Definition text_eq (column : string) (v : sqlval) : bool :=
  match text_affinity v with
  | Some s => String.eqb column s
  | None => false
  end.

(** [id = ?] for an [INTEGER PRIMARY KEY]. *)
Definition id_eq (id : Z) (v : sqlval) : bool :=
  match v with
  | SNull => false
  | SInt n => id =? n
  | SReal _ | SText _ => sqlite_eq_integer v id
  end.

(** A [TEXT NOT NULL] column. *)
Definition not_null (column : string) (v : sqlval) : result string :=
  match text_affinity v with
  | Some s => Ok s
  | None =>
      Raise (integrity_error
               (String.append "NOT NULL constraint failed: " column))
  end.

Definition not_null_any (column : string) (v : sqlval) : result unit :=
  match v with
  | SNull =>
      Raise (integrity_error
               (String.append "NOT NULL constraint failed: " column))
  | _ => Ok tt
  end.

Definition check (holds : bool) (expr : string) : result unit :=
  if holds then Ok tt
  else Raise (integrity_error (String.append "CHECK constraint failed: " expr)).

Definition unique (taken : bool) (column : string) : result unit :=
  if taken then
    Raise (integrity_error (String.append "UNIQUE constraint failed: " column))
  else Ok tt.

(** [s.encode()]: only a [str] has the method, and a [str] without UTF-8
    encoding raises [UnicodeEncodeError]. *)
Definition py_encode (v : json) : result string :=
  match v with
  | JStr s => Ok s
  | JStrNotUtf8 error => Raise (mkExn UnicodeEncodeError error)
  | _ => Raise (no_attribute v "encode")
  end.

(** [INSERT INTO users (username, email, password_hash, user_type)];
    [created_at] takes [CURRENT_TIMESTAMP]. *)
Definition insert_user (username' email' : sqlval)
    (password_hash' user_type' : string) (now : string) (db : database)
  : result database :=
  u <- not_null "users.username" username';;
  e <- not_null "users.email" email';;
  _ <- check (mem_string user_type' ["admin"; "adopter"])
         "user_type IN ('admin', 'adopter')";;
  _ <- unique (existsb (fun r => String.eqb (username r) u) (users db))
         "users.username";;
  _ <- unique (existsb (fun r => String.eqb (email r) e) (users db))
         "users.email";;
  let id := seq_users db + 1 in
  Ok (mkDb (users db ++ [mkUser id u e password_hash' user_type' now])
        (animals db) (adoption_applications db)
        id (seq_animals db) (seq_applications db)).

(** Lines 143-156. *)
Definition handle_login (data : json) (db : database) : result json :=
  username' <- py_get data "username";;
  password <- py_get data "password";;
  user_type' <- py_get data "user_type";;
  encoded <- py_encode password;;
  let password_hash' := sha256_hexdigest encoded in
  u <- sql_bind 1 username';;
  t <- sql_bind 3 user_type';;
  let user :=
    find (fun r => text_eq (username r) u
                   && String.eqb (password_hash r) password_hash'
                   && text_eq (user_type r) t) (users db) in
  match user with
  | Some r =>
      Ok (JDict [("success", JBool true);
                 ("user", JDict [("id", JInt (user_id r));
                                 ("username", JStr (username r));
                                 ("email", JStr (email r));
                                 ("user_type", JStr (user_type r))])])
  | None => Ok (failure "Invalid credentials")
  end.

(** [except sqlite3.IntegrityError]: any other exception goes on. *)
Definition except_integrity_error {A : Type} (body : result A) (handler : A)
  : result A :=
  match body with
  | Ok a => Ok a
  | Raise e =>
      match exn_cls e with
      | IntegrityError => Ok handler
      | _ => Raise e
      end
  end.

(** Lines 158-172. *)
Definition handle_register (now : string) (data : json) (db : database)
  : result (json * database) :=
  username' <- py_get data "username";;
  email' <- py_get data "email";;
  password <- py_get data "password";;
  encoded <- py_encode password;;
  let password_hash' := sha256_hexdigest encoded in
  except_integrity_error
    (u <- sql_bind 1 username';;
     e <- sql_bind 2 email';;
     db' <- insert_user u e password_hash' "adopter" now db;;
     Ok (success, db'))
    (failure "Username or email already exists", db).

(** Lines 174-184. *)
Definition handle_get_pets (db : database) : json :=
  let pets :=
    map (fun row =>
           JDict [("id", JInt (animal_id row));
                  ("name", JStr (name row));
                  ("species", JStr (animal_species row));
                  ("breed", JStr (breed row));
                  ("color", JStr (color row));
                  ("age_months", JInt (animal_age_months row));
                  ("gender", JStr (gender row));
                  ("vaccinated", JBool (negb (vaccinated row =? 0)));
                  ("activity_level", JStr (animal_activity_level row));
                  ("weight_kg", JFloat (weight_kg row));
                  ("description", json_of_option_string (description row));
                  ("profile_photo_url",
                   json_of_option_string (profile_photo_url row))])
        (animals db) in
  JDict [("success", JBool true); ("pets", JList pets)].

(** [INSERT INTO animals (...)]: the [NOT NULL] constraints in column
    order, then the three [CHECK] constraints.  SQLite stores a NaN as
    [NULL]. *)
Definition insert_animal (name' species' breed' color' : sqlval)
    (age_months' : Z) (gender' : sqlval) (vaccinated' : Z)
    (activity_level' : sqlval) (weight_kg' : float)
    (description' profile_photo_url' : sqlval) (now : string) (db : database)
  : result database :=
  n <- not_null "animals.name" name';;
  s <- not_null "animals.species" species';;
  b <- not_null "animals.breed" breed';;
  c <- not_null "animals.color" color';;
  g <- not_null "animals.gender" gender';;
  a <- not_null "animals.activity_level" activity_level';;
  _ <- not_null_any "animals.weight_kg"
         (if PrimFloat.is_nan weight_kg' then SNull else SReal weight_kg');;
  _ <- check (mem_string g ["Male"; "Female"]) "gender IN ('Male', 'Female')";;
  _ <- check ((vaccinated' =? 0) || (vaccinated' =? 1)) "vaccinated IN (0, 1)";;
  _ <- check (mem_string a ["Low"; "Medium"; "High"])
         "activity_level IN ('Low', 'Medium', 'High')";;
  let id := seq_animals db + 1 in
  Ok (mkDb (users db)
        (animals db ++
           [mkAnimal id n s b c age_months' g vaccinated' a weight_kg'
              (text_affinity description') (text_affinity profile_photo_url')
              now])
        (adoption_applications db)
        (seq_users db) id (seq_applications db)).

(** Lines 186-198.  The tuple of parameters is built left to right, then
    bound left to right; the parameter at position 9 is the [float]
    weight, which always binds. *)
Definition handle_add_pet (now : string) (data : json) (db : database)
  : json * database :=
  try_except
    (name' <- py_getitem data "name";;
     species' <- py_getitem data "species";;
     breed' <- py_getitem data "breed";;
     color' <- py_getitem data "color";;
     age <- py_getitem data "age_months";;
     age_months' <- py_int age;;
     gender' <- py_getitem data "gender";;
     vacc <- py_getitem data "vaccinated";;
     vaccinated' <- py_int vacc;;
     activity_level' <- py_getitem data "activity_level";;
     weight <- py_getitem data "weight_kg";;
     weight_kg' <- py_float weight;;
     description' <- py_getitem data "description";;
     profile_photo_url' <- py_getitem data "profile_photo_url";;
     n <- sql_bind 1 name';;
     s <- sql_bind 2 species';;
     b <- sql_bind 3 breed';;
     c <- sql_bind 4 color';;
     _ <- sql_bind 5 (JInt age_months');;
     g <- sql_bind 6 gender';;
     _ <- sql_bind 7 (JInt vaccinated');;
     a <- sql_bind 8 activity_level';;
     d <- sql_bind 10 description';;
     p <- sql_bind 11 profile_photo_url';;
     db' <- insert_animal n s b c age_months' g vaccinated' a weight_kg' d p
              now db;;
     Ok (success, db'))
    (fun e => (failure (exn_str e), db)).

(** The [dict] appended for one row of the [SELECT]. *)
Definition request_item (row : application_row) : json :=
  JDict [("id", JInt (application_id row));
         ("adopter_name", JStr (adopter_name row));
         ("pet_name", JStr (pet_name row));
         ("applied_at", JStr (applied_at row));
         ("status", JStr (status row))].

(** Lines 200-208. *)
Definition handle_get_requests (db : database) : json :=
  let requests :=
    map request_item (order_by_applied_at_desc (adoption_applications db)) in
  JDict [("success", JBool true); ("requests", JList requests)].

(** [INSERT INTO adoption_applications (adopter_id, animal_id,
    adopter_name, pet_name)]: [status] and [applied_at] take their defaults;
    the foreign keys are declared and not enforced. *)
Definition insert_application (adopter_id' animal_id' adopter_name' pet_name'
    : sqlval) (now : string) (db : database) : result database :=
  _ <- not_null_any "adoption_applications.adopter_id" adopter_id';;
  _ <- not_null_any "adoption_applications.animal_id" animal_id';;
  an <- not_null "adoption_applications.adopter_name" adopter_name';;
  pn <- not_null "adoption_applications.pet_name" pet_name';;
  let id := seq_applications db + 1 in
  Ok (mkDb (users db) (animals db)
        (adoption_applications db ++
           [mkApplication id (integer_affinity adopter_id')
              (integer_affinity animal_id') an pn "pending" now])
        (seq_users db) (seq_animals db) id).

(** Lines 210-220. *)
Definition handle_adopt_pet (now : string) (data : json) (db : database)
  : json * database :=
  try_except
    (adopter_id' <- py_getitem data "adopter_id";;
     animal_id' <- py_getitem data "animal_id";;
     adopter_name' <- py_getitem data "adopter_name";;
     pet_name' <- py_getitem data "pet_name";;
     a <- sql_bind 1 adopter_id';;
     b <- sql_bind 2 animal_id';;
     c <- sql_bind 3 adopter_name';;
     d <- sql_bind 4 pet_name';;
     db' <- insert_application a b c d now db;;
     Ok (success, db'))
    (fun e => (failure (exn_str e), db)).

(** [SELECT species, activity_level, age_months FROM animals WHERE id = ?]
    followed by [fetchone()]. *)
Definition select_pet (pet_id : sqlval) (db : database) : option pet_traits :=
  match find (fun row => id_eq (animal_id row) pet_id) (animals db) with
  | Some row =>
      Some (mkTraits (animal_species row) (animal_activity_level row)
              (animal_age_months row))
  | None => None
  end.

Definition compatibility_response (c : compatibility) : json :=
  JDict [("success", JBool true);
         ("compatibility_percentage", JInt (compatibility_percentage c));
         ("message", JStr (message c));
         ("reasons", JList (map JStr (reasons c)))].

(** Lines 224-227: the three yes/no fields and the experience level. *)
Definition read_applicant (data : json) : result applicant :=
  yard <- py_get data "has_yard";;
  let has_yard' := py_eq_str yard "yes" in
  children <- py_get data "has_children";;
  let has_children' := py_eq_str children "yes" in
  other_pets <- py_get data "has_other_pets";;
  let has_other_pets' := py_eq_str other_pets "yes" in
  experience_level' <- py_get data "experience_level";;
  Ok (mkApplicant has_yard' has_children' has_other_pets' experience_level').

(** Lines 222-269. *)
Definition handle_compatibility_check (data : json) (db : database)
  : result json :=
  pet_id <- py_get data "pet_id";;
  a <- read_applicant data;;
  id <- sql_bind 1 pet_id;;
  match select_pet id db with
  | None => Ok (failure "Pet not found")
  | Some pet => Ok (compatibility_response (score_pet pet a))
  end.

(** ** [init_database] *)

(** [INSERT OR IGNORE INTO users]: a row that breaks a constraint is
    skipped.  The skipped row has used up an identifier of the
    [AUTOINCREMENT] column all the same: [sqlite_sequence] advances by
    one. *)
Definition insert_or_ignore_user (username' email' : string)
    (password_hash' user_type' : string) (now : string) (db : database)
  : database :=
  try_except
    (insert_user (SText username') (SText email') password_hash' user_type'
       now db)
    (fun _ =>
       mkDb (users db) (animals db) (adoption_applications db)
         (seq_users db + 1) (seq_animals db) (seq_applications db)).

(** The tuples of [sample_pets]. *)
Definition sample_pet : Type :=
  (string * string * string * string * Z * string * Z * string * float
   * string * string)%type.

#[warnings="-inexact-float"]
Definition sample_pets : list sample_pet :=
  [("Max", "Dog", "Golden Retriever", "Golden", 24, "Male", 1, "High", 30.5%float,
    "Friendly and energetic golden retriever who loves to play fetch!",
    "https://images.unsplash.com/photo-1633722715463-d30f4f325e24?w=400");
   ("Charlie", "Dog", "Labrador", "Black", 36, "Male", 1, "High", 32.0%float,
    "Loyal and intelligent lab, great with families and children.",
    "https://images.unsplash.com/photo-1587300003388-59208cc962cb?w=400");
   ("Rocky", "Dog", "German Shepherd", "Brown", 48, "Male", 1, "High", 38.5%float,
    "Protective and loyal German Shepherd, needs experienced owner.",
    "https://images.unsplash.com/photo-1568572933382-74d440642117?w=400");
   ("Daisy", "Dog", "Beagle", "Tricolor", 15, "Female", 1, "Medium", 12.0%float,
    "Sweet beagle puppy with lots of energy and curiosity.",
    "https://images.unsplash.com/photo-1505628346881-b72b27e84530?w=400");
   ("Buddy", "Dog", "Poodle", "White", 20, "Male", 1, "Medium", 15.0%float,
    "Smart and hypoallergenic poodle, perfect for families with allergies.",
    "https://images.unsplash.com/photo-1616940844649-535215ae4eb1?w=400");
   ("Duke", "Dog", "Bulldog", "Brindle", 28, "Male", 1, "Low", 25.0%float,
    "Laid-back bulldog with a sweet temperament, great for apartments.",
    "https://images.unsplash.com/photo-1583511655857-d19b40a7a54e?w=400");
   ("Cooper", "Dog", "Husky", "Gray & White", 30, "Male", 1, "High", 28.0%float,
    "Energetic Siberian Husky with striking blue eyes, loves cold weather and running.",
    "https://images.unsplash.com/photo-1605568427561-40dd23c2acea?w=400");
   ("Luna", "Cat", "Siamese", "Cream", 18, "Female", 1, "Medium", 4.2%float,
    "Elegant Siamese cat with beautiful blue eyes and a gentle personality.",
    "https://images.unsplash.com/photo-1513360371669-4adf3dd7dff8?w=400");
   ("Bella", "Cat", "Persian", "White", 12, "Female", 1, "Low", 3.8%float,
    "Calm and affectionate Persian cat, perfect for quiet homes.",
    "https://images.unsplash.com/photo-1595433707802-6b2626ef1c91?w=400");
   ("Whiskers", "Cat", "Maine Coon", "Orange", 30, "Male", 1, "Medium", 6.5%float,
    "Large and fluffy Maine Coon with a playful personality.",
    "https://images.unsplash.com/photo-1574158622682-e40e69881006?w=400");
   ("Shadow", "Cat", "British Shorthair", "Gray", 24, "Male", 1, "Low", 5.5%float,
    "Calm and independent British Shorthair, great for apartments.",
    "https://images.unsplash.com/photo-1596854407944-bf87f6fdd49e?w=400");
   ("Cleo", "Cat", "Bengal", "Spotted", 14, "Female", 1, "High", 4.5%float,
    "Active and playful Bengal cat with beautiful spotted coat.",
    "https://images.unsplash.com/photo-1606214174585-fe31582dc6ee?w=400")].

Definition insert_sample_pet (now : string) (db : result database)
    (pet : sample_pet) : result database :=
  let '(n, s, b, c, age, g, v, a, w, d, p) := pet in
  db <- db;;
  insert_animal (SText n) (SText s) (SText b) (SText c) age (SText g) v
    (SText a) w (SText d) (SText p) now db.

(** Lines 21-140; the tables exist as soon as there is a [database]. *)
Definition init_database (now : string) (db : database) : result database :=
  let admin_password := sha256_hexdigest "admin123" in
  let db :=
    insert_or_ignore_user "admin" "admin@shelter.com" admin_password "admin"
      now db in
  let adopter_password := sha256_hexdigest "user123" in
  let db :=
    insert_or_ignore_user "user" "user@example.com" adopter_password "adopter"
      now db in
  if Z.of_nat (List.length (animals db)) =? 0 then
    fold_left (insert_sample_pet now) sample_pets (Ok db)
  else Ok db.

(** ** The HTTP entry points *)

Inductive payload : Type :=
| NoBody
| HtmlBody
| JsonBody (j : json).

(** What the handler sends: the status line, the [Content-type] header and
    the bytes written to [wfile] ([HtmlBody] is the embedded page). *)
Record http_response : Type := mkResponse {
  status_code : Z;
  content_type : option string;
  body : payload
}.

(** The request line's path, the [Content-Length] header when there is one,
    and the bytes that follow the headers. *)
Record http_request : Type := mkRequest {
  path : string;
  content_length : option string;
  rfile : string
}.

(** The paths that [do_POST] and [do_GET] compare [self.path] with. *)
Definition post_endpoints : list string :=
  ["/api/login"; "/api/register"; "/api/pets"; "/api/requests"; "/api/adopt";
   "/api/ai/match"].

Definition get_paths : list string := ["/"; "/index.html"; "/api/pets"].

(** Lines 1029-1043. *)
Definition do_GET (req : http_request) (db : database) : http_response :=
  if String.eqb (path req) "/" || String.eqb (path req) "/index.html" then
    mkResponse 200 (Some "text/html") HtmlBody
  else if String.eqb (path req) "/api/pets" then
    let response := handle_get_pets db in
    mkResponse 200 (Some "application/json") (JsonBody response)
  else
    mkResponse 404 None NoBody.

(** [self.headers['Content-Length']]: [None] when the header is absent. *)
Definition header_value (h : option string) : json :=
  match h with
  | Some s => JStr s
  | None => JNull
  end.

(** [self.rfile.read(n)]. *)
Definition rfile_read (n : Z) (stream : string) : string :=
  if n <? 0 then stream else String.substring 0 (Z.to_nat n) stream.

(** Lines 1045-1070.  An exception leaves the method before
    [send_response]: nothing is sent. *)
Definition do_POST (now : string) (req : http_request) (db : database)
  : result (http_response * database) :=
  content_length' <- py_int (header_value (content_length req));;
  let post_data := rfile_read content_length' (rfile req) in
  data <- json_loads post_data;;
  r <- (if String.eqb (path req) "/api/login" then
          response <- handle_login data db;; Ok (response, db)
        else if String.eqb (path req) "/api/register" then
          handle_register now data db
        else if String.eqb (path req) "/api/pets" then
          Ok (handle_add_pet now data db)
        else if String.eqb (path req) "/api/requests" then
          Ok (handle_get_requests db, db)
        else if String.eqb (path req) "/api/adopt" then
          Ok (handle_adopt_pet now data db)
        else if String.eqb (path req) "/api/ai/match" then
          response <- handle_compatibility_check data db;; Ok (response, db)
        else
          Ok (failure "Unknown endpoint", db));;
  let '(response, db') := r in
  Ok (mkResponse 200 (Some "application/json") (JsonBody response), db').

(** ** Sample states and requests *)

Definition max_row : animal_row :=
  mkAnimal 1 "Max" "Dog" "Golden Retriever" "Golden" 24 "Male" 1 "High"
    30.5%float
    (Some "Friendly and energetic golden retriever who loves to play fetch!")
    (Some "https://images.unsplash.com/photo-1633722715463-d30f4f325e24?w=400")
    "2024-05-01 09:00:00".

Definition one_pet_db : database := mkDb [] [max_row] [] 0 1 0.

Definition admin_row : user_row :=
  mkUser 1 "admin" "admin@shelter.com" "digest-of-admin123" "admin"
    "2024-05-01 09:00:00".

Definition one_user_db : database := mkDb [admin_row] [] [] 1 0 0.

Definition quoted (s : string) : string :=
  String "034"%char (String.append s (String "034"%char EmptyString)).

(** The body [{"username": "admin", "user_type": "admin"}], 43 bytes. *)
Definition login_body_without_password : string :=
  String.concat ""
    ["{"; quoted "username"; ": "; quoted "admin"; ", "; quoted "user_type";
     ": "; quoted "admin"; "}"].

(** Stand-ins for the library functions on the sample requests: the header
    values ["43"] and ["2"], the body above and the body [{}]. *)
Definition sample_py_int (v : json) : result Z :=
  match v with
  | JStr "43" => Ok 43
  | JStr "2" => Ok 2
  | JInt n => Ok n
  | _ => Raise (mkExn TypeError "int() argument must be a string or a number")
  end.

Definition sample_json_loads (s : string) : result json :=
  if String.eqb s login_body_without_password then
    Ok (JDict [("username", JStr "admin"); ("user_type", JStr "admin")])
  else if String.eqb s "{}" then Ok (JDict [])
  else Raise (mkExn JSONDecodeError "Expecting value").

(** ** What holds of the database in every state the server reaches *)

(** The [UNIQUE], [CHECK] and [AUTOINCREMENT] clauses of [init_database] as
    they bear on the rows that the program writes, and the one value of
    [status] that the program ever stores: no statement writes the column,
    so every row has the [DEFAULT 'pending'].  (The schema itself would
    allow approved and rejected.) *)
Record db_wf (db : database) : Prop := mkWf {
  wf_usernames : NoDup (map username (users db));
  wf_emails : NoDup (map email (users db));
  wf_user_ids : StronglySorted Z.lt (map user_id (users db));
  wf_user_seq : Forall (fun r => 1 <= user_id r <= seq_users db) (users db);
  wf_user_types :
    Forall (fun r => mem_string (user_type r) ["admin"; "adopter"] = true)
      (users db);
  wf_animal_ids : StronglySorted Z.lt (map animal_id (animals db));
  wf_animal_seq :
    Forall (fun r => 1 <= animal_id r <= seq_animals db) (animals db);
  wf_animal_checks :
    Forall (fun r =>
              mem_string (gender r) ["Male"; "Female"] = true
              /\ (vaccinated r = 0 \/ vaccinated r = 1)
              /\ mem_string (animal_activity_level r) ["Low"; "Medium"; "High"]
                 = true
              /\ PrimFloat.is_nan (weight_kg r) = false)
      (animals db);
  wf_application_ids :
    StronglySorted Z.lt (map application_id (adoption_applications db));
  wf_application_seq :
    Forall (fun r => 1 <= application_id r <= seq_applications db)
      (adoption_applications db);
  wf_application_status :
    Forall (fun r => status r = "pending") (adoption_applications db);
  wf_seqs : 0 <= seq_users db /\ 0 <= seq_animals db /\ 0 <= seq_applications db
}.

(** The percentage that [handle_compatibility_check] reports. *)
Definition percentage_of (pet : pet_traits) (a : applicant) : Z :=
  compatibility_percentage (score_pet pet a).

(** ** Vocabulary of the properties *)

(** The keys that [handle_add_pet] reads with [data[...]]. *)
Definition pet_fields : list string :=
  ["name"; "species"; "breed"; "color"; "age_months"; "gender"; "vaccinated";
   "activity_level"; "weight_kg"; "description"; "profile_photo_url"].

(** The row that one tuple of [sample_pets] becomes. *)
Definition sample_row (now : string) (id : Z) (pet : sample_pet) : animal_row :=
  let '(n, s, b, c, age, g, v, a, w, d, p) := pet in
  mkAnimal id n s b c age g v a w (Some d) (Some p) now.

Fixpoint sample_rows (now : string) (seq : Z) (pets : list sample_pet)
  : list animal_row :=
  match pets with
  | [] => []
  | pet :: rest => sample_row now (seq + 1) pet :: sample_rows now (seq + 1) rest
  end.

(** A tuple that passes the [CHECK] and [NOT NULL] constraints of
    [animals]. *)
Definition sample_ok (pet : sample_pet) : bool :=
  let '(n, s, b, c, age, g, v, a, w, d, p) := pet in
  mem_string g ["Male"; "Female"]
  && ((v =? 0) || (v =? 1))
  && mem_string a ["Low"; "Medium"; "High"]
  && negb (PrimFloat.is_nan w).

(** The database after an [INSERT OR IGNORE INTO users] whose row was
    skipped. *)
Definition skip_user_id (db : database) : database :=
  mkDb (users db) (animals db) (adoption_applications db)
    (seq_users db + 1) (seq_animals db) (seq_applications db).

(** A stored user has this username or this email. *)
Definition taken (username' email' : string) (db : database) : bool :=
  existsb (fun r => String.eqb (username r) username') (users db)
  || existsb (fun r => String.eqb (email r) email') (users db).



(** The states of the database file: an empty file, then any runs of
    [init_database] and any POST requests that [do_POST] answers.  (A GET
    and a POST that raises write nothing.) *)
Inductive reachable : database -> Prop :=
| reach_empty : reachable empty_db
| reach_init (now : string) (db db' : database) :
    reachable db -> init_database now db = Ok db' -> reachable db'
| reach_post (now : string) (req : http_request) (db : database)
    (resp : http_response) (db' : database) :
    reachable db -> do_POST now req db = Ok (resp, db') -> reachable db'.

(** ** More sample requests *)

(** The body [{"username": "sam", "email": "sam@example.com",
    "password": "pw"}], 65 bytes. *)
Definition register_body : string :=
  String.concat ""
    ["{"; quoted "username"; ": "; quoted "sam"; ", "; quoted "email"; ": ";
     quoted "sam@example.com"; ", "; quoted "password"; ": "; quoted "pw";
     "}"].

Definition register_request : list (string * json) :=
  [("username", JStr "sam"); ("email", JStr "sam@example.com");
   ("password", JStr "pw")].


(** Stand-ins for the library functions on these requests. *)
Definition form_py_int (v : json) : result Z :=
  match v with
  | JStr "24" => Ok 24
  | JStr "1" => Ok 1
  | JStr "65" => Ok 65
  | JInt n => Ok n
  | _ => Raise (mkExn ValueError "invalid literal for int() with base 10")
  end.

Definition form_py_float (v : json) : result float :=
  match v with
  | JStr "30.5" => Ok 30.5%float
  | _ => Raise (mkExn ValueError "could not convert string to float")
  end.

Definition form_json_loads (s : string) : result json :=
  if String.eqb s register_body then Ok (JDict register_request)
  else Raise (mkExn JSONDecodeError "Expecting value").

Definition form_parseInt (s : string) : option Z :=
  if String.eqb s "0" then Some 0 else None.

Definition old_pet : pet :=
  mkPet 7 "Methuselah" "Cat" "Persian" "White" 1200 "Male" true "Low"
    4.5%float None None.


(** ** Sample requests with a body that is read in full *)

(** Stand-ins for [int] and [json.loads] that know one request: the
    [Content-Length] of [body] in decimal, and [body] decoded to [data]. *)
Definition body_py_int (body : string) (v : json) : result Z :=
  match v with
  | JStr s =>
      if String.eqb s (decimal (Z.of_nat (String.length body)))
      then Ok (Z.of_nat (String.length body))
      else Raise (mkExn ValueError "invalid literal for int() with base 10")
  | JInt n => Ok n
  | _ => Raise (mkExn TypeError "int() argument must be a string or a number")
  end.

Definition body_json_loads (body : string) (data : json) (s : string)
  : result json :=
  if String.eqb s body then Ok data
  else Raise (mkExn JSONDecodeError "Expecting value").

Definition request_with_body (path' body : string) : http_request :=
  mkRequest path' (Some (decimal (Z.of_nat (String.length body)))) body.

(** The body [{"pet_id": 9223372036854775808}]. *)
Definition huge_pet_id_body : string :=
  String.concat "" ["{"; quoted "pet_id"; ": "; decimal (2 ^ 63); "}"].

(** The body [{"adopter_id": 2, "animal_id": 1, "adopter_name": "user",
    "pet_name": "Max"}]. *)
Definition adopt_body : string :=
  String.concat ""
    ["{"; quoted "adopter_id"; ": 2, "; quoted "animal_id"; ": 1, ";
     quoted "adopter_name"; ": "; quoted "user"; ", "; quoted "pet_name";
     ": "; quoted "Max"; "}"].

Definition adopt_request : json :=
  JDict [("adopter_id", JInt 2); ("animal_id", JInt 1);
         ("adopter_name", JStr "user"); ("pet_name", JStr "Max")].

(** * Properties *)

(** ** The scorer *)

Lemma clamp_bounds (s : Z) : 0 <= clamp s <= 100.
Proof. unfold clamp. lia. Qed.

Lemma clamp_spec (s : Z) : clamp s = Spec.clamp_0_100 s.
Proof.
  unfold clamp, Spec.clamp_0_100.
  destruct (Z.ltb_spec s 0); destruct (Z.ltb_spec 100 s); lia.
Qed.

Lemma select_message_spec (s : Z) : select_message s = Spec.message_for s.
Proof.
  unfold select_message, Spec.message_for.
  rewrite !Z.geb_leb. reflexivity.
Qed.

(** The accumulated score and reasons are the sum and the concatenation of
    the four steps. *)
Lemma accumulate_steps (pet : pet_traits) (a : applicant) :
  accumulate pet a =
  (Spec.raw_score pet a,
   flat_map (fun s : Spec.step => Spec.emitted (snd s)) (Spec.steps pet a)).
Proof.
  destruct pet as [sp act age], a as [yard children others level].
  unfold accumulate, Spec.raw_score, Spec.steps, Spec.yard_step,
    Spec.experience_step, Spec.children_step, Spec.other_pets_step,
    Spec.high, Spec.experience_is; cbn [species activity_level age_months
    has_yard has_children has_other_pets experience_level].
  change (match level with JStr s => String.eqb s "Beginner" | _ => false end)
    with (py_eq_str level "Beginner").
  change (match level with JStr s => String.eqb s "Experienced" | _ => false end)
    with (py_eq_str level "Experienced").
  destruct (String.eqb act "High"), yard,
    (py_eq_str level "Beginner"), (py_eq_str level "Experienced"),
    children, (age <? 12), others, (String.eqb sp "Dog"); reflexivity.
Qed.

(** C1: for every animal record and every applicant input the scorer of
    [handle_compatibility_check] returns what the specification's algorithm
    returns: the same percentage, the same message and the same reasons in
    the same order. *)
Theorem score_pet_computes_spec_algorithm (pet : pet_traits) (a : applicant) :
  score_pet pet a = Spec.score pet a.
Proof.
  unfold score_pet, Spec.score.
  rewrite accumulate_steps, clamp_spec, select_message_spec.
  reflexivity.
Qed.

(** C3: the compatibility percentage is at least 0 and at most 100 for every
    combination of animal traits and applicant inputs. *)
Theorem compatibility_percentage_in_0_100 (pet : pet_traits) (a : applicant) :
  0 <= compatibility_percentage (score_pet pet a) <= 100.
Proof.
  unfold score_pet.
  destruct (accumulate pet a) as [score rs]. cbn.
  apply clamp_bounds.
Qed.

(** The score before the clamp lies between 50 and 110. *)
Lemma accumulate_range (pet : pet_traits) (a : applicant) :
  50 <= fst (accumulate pet a) <= 110.
Proof.
  destruct pet as [sp act age], a as [yard children others level].
  unfold accumulate; cbn [species activity_level age_months
    has_yard has_children has_other_pets experience_level].
  destruct (String.eqb act "High"), yard,
    (py_eq_str level "Beginner"), (py_eq_str level "Experienced"),
    children, (age <? 12), others, (String.eqb sp "Dog"); cbn; lia.
Qed.

(** Both bounds are reached: every penalty at once, and the bonus alone. *)
Lemma accumulate_range_attained :
  fst (accumulate (mkTraits "Cat" "High" 3)
         (mkApplicant false true true (JStr "Beginner"))) = 50
  /\ fst (accumulate (mkTraits "Cat" "Low" 24)
            (mkApplicant false false false (JStr "Experienced"))) = 110.
Proof. split; reflexivity. Qed.

Lemma select_message_poor (s : Z) : 40 <= s -> select_message s <> poor_message.
Proof.
  intros Hs. unfold select_message.
  destruct (Z.geb_spec s 80); [discriminate|].
  destruct (Z.geb_spec s 60); [discriminate|].
  destruct (Z.geb_spec s 40); [discriminate|lia].
Qed.

(** C10: the score before the clamp is at least 50 and at most 110; the
    percentage lies in [50,100]; the lower bound of the clamp changes
    nothing; the message for scores below 40 is never returned. *)
Theorem score_before_clamp_in_50_110 (pet : pet_traits) (a : applicant) :
  50 <= fst (accumulate pet a) <= 110
  /\ 50 <= compatibility_percentage (score_pet pet a) <= 100
  /\ clamp (fst (accumulate pet a)) = Z.min 100 (fst (accumulate pet a))
  /\ message (score_pet pet a) <> poor_message.
Proof.
  pose proof (accumulate_range pet a) as Hr.
  unfold score_pet.
  destruct (accumulate pet a) as [score rs]. cbn in *.
  unfold clamp.
  repeat split; try lia.
  apply select_message_poor. lia.
Qed.

(** C2: a Dog of 24 months with activity level High, scored for a Beginner
    without yard, children or other pets, gets 65, the "Good match" message
    and the yard and beginner reasons in that order; the handler answers so
    for the first seeded pet (Max, a Dog of 24 months, High). *)
Theorem beginner_without_yard_scores_65 :
  score_pet (mkTraits "Dog" "High" 24)
    (mkApplicant false false false (JStr "Beginner"))
  = mkCompat 65 "Good match! This pet would fit well in your home."
      ["High-energy pets benefit from having a yard";
       "High-energy pets may be challenging for beginners"]
  /\ forall now : string,
       (db <- init_database now empty_db;;
        handle_compatibility_check
          (JDict [("pet_id", JInt 1); ("has_yard", JStr "no");
                  ("has_children", JStr "no"); ("has_other_pets", JStr "no");
                  ("experience_level", JStr "Beginner")]) db)
       = Ok (JDict
               [("success", JBool true);
                ("compatibility_percentage", JInt 65);
                ("message",
                 JStr "Good match! This pet would fit well in your home.");
                ("reasons",
                 JList
                   [JStr "High-energy pets benefit from having a yard";
                    JStr "High-energy pets may be challenging for beginners"])]).
Proof.
  split; [reflexivity|].
  intros now. vm_compute. reflexivity.
Qed.

(** ** The compatibility endpoint *)

Lemma py_get_dict (items : list (string * json)) (key : string) :
  py_get (JDict items) key =
  Ok (match assoc key items with Some v => v | None => JNull end).
Proof. unfold py_get. destruct (assoc key items); reflexivity. Qed.

Lemma py_eq_str_true (v : json) (s : string) :
  py_eq_str v s = true <-> v = JStr s.
Proof.
  destruct v; cbn; try (split; [discriminate|discriminate]).
  rewrite String.eqb_eq. split; [intros ->; reflexivity|].
  intros H; injection H; auto.
Qed.

(** A field of the request compared with the literal ["yes"]. *)
Lemma yes_field (items : list (string * json)) (key : string) :
  py_eq_str (match assoc key items with Some v => v | None => JNull end) "yes"
  = true <-> assoc key items = Some (JStr "yes").
Proof.
  rewrite py_eq_str_true.
  destruct (assoc key items) as [v|].
  - split; [intros ->; reflexivity|intros H; injection H; auto].
  - split; discriminate.
Qed.

Lemma yes_no_fields_read (items : list (string * json)) :
  exists a : applicant, read_applicant (JDict items) = Ok a.
Proof.
  unfold read_applicant. rewrite !py_get_dict. cbn [bind].
  eexists. reflexivity.
Qed.

(** C4: on every request object the three yes/no fields are read without
    error, and each is true exactly when the object has that key with the
    string ["yes"] as its value; ["no"], ["Yes"], ["true"], the boolean
    [true] and an absent key give false. *)
Theorem yes_no_fields_are_literal_yes (items : list (string * json)) :
  exists a : applicant,
    read_applicant (JDict items) = Ok a
    /\ (has_yard a = true <-> assoc "has_yard" items = Some (JStr "yes"))
    /\ (has_children a = true <->
        assoc "has_children" items = Some (JStr "yes"))
    /\ (has_other_pets a = true <->
        assoc "has_other_pets" items = Some (JStr "yes"))
    /\ (forall v : json,
          In v [JStr "no"; JStr "Yes"; JStr "true"; JBool true; JNull] ->
          py_eq_str v "yes" = false).
Proof.
  unfold read_applicant.
  rewrite !py_get_dict. cbn [bind].
  eexists. split; [reflexivity|].
  cbn [has_yard has_children has_other_pets].
  split; [apply yes_field|].
  split; [apply yes_field|].
  split; [apply yes_field|].
  intros v Hv. cbn in Hv.
  repeat (destruct Hv as [<-|Hv]; [reflexivity|]). contradiction.
Qed.

Lemma find_none_iff {A : Type} (f : A -> bool) (l : list A) :
  (forall x, In x l -> f x = false) -> find f l = None.
Proof.
  induction l as [|x l IH]; intros H; cbn; [reflexivity|].
  rewrite (H x (or_introl eq_refl)).
  apply IH. intros y Hy. apply H. right. exact Hy.
Qed.

Lemma select_pet_none (id : sqlval) (db : database) :
  (forall row, In row (animals db) -> id_eq (animal_id row) id = false) ->
  select_pet id db = None.
Proof.
  intros H. unfold select_pet.
  rewrite (find_none_iff _ _ H). reflexivity.
Qed.

(** What the handler returns on a request object, once [pet_id] is bound. *)
Lemma handle_compatibility_check_dict (items : list (string * json))
    (db : database) (pet_id : json) (id : sqlval) :
  py_get (JDict items) "pet_id" = Ok pet_id ->
  sql_bind 1 pet_id = Ok id ->
  exists a : applicant,
    read_applicant (JDict items) = Ok a
    /\ handle_compatibility_check (JDict items) db =
       match select_pet id db with
       | None => Ok (failure "Pet not found")
       | Some pet => Ok (compatibility_response (score_pet pet a))
       end.
Proof.
  intros Hget Hbind.
  destruct (yes_no_fields_read items) as [a Ha].
  exists a. split; [exact Ha|].
  unfold handle_compatibility_check.
  rewrite Hget. cbn [bind]. rewrite Ha. cbn [bind]. rewrite Hbind.
  reflexivity.
Qed.

(** Where [sqlite3] binds the [pet_id] of the request and it matches the
    [id] of no row of [animals], the compatibility check answers
    [{success: false, message: "Pet not found"}]: a dict of these two keys,
    without score, fit message or reasons. *)
Lemma bound_pet_id_miss_is_not_found (items : list (string * json))
    (db : database) (pet_id : json) (id : sqlval) :
  py_get (JDict items) "pet_id" = Ok pet_id ->
  sql_bind 1 pet_id = Ok id ->
  (forall row, In row (animals db) -> id_eq (animal_id row) id = false) ->
  handle_compatibility_check (JDict items) db =
  Ok (JDict [("success", JBool false); ("message", JStr "Pet not found")]).
Proof.
  intros Hget Hbind Hnone.
  destruct (handle_compatibility_check_dict items db pet_id id Hget Hbind)
    as [a [_ ->]].
  rewrite (select_pet_none _ _ Hnone).
  reflexivity.
Qed.

(** ** Registration *)

Lemma existsb_In {A : Type} (f : A -> bool) (l : list A) (x : A) :
  In x l -> f x = true -> existsb f l = true.
Proof.
  intros Hin Hf. apply existsb_exists. exists x. split; assumption.
Qed.




(** ** The list of applications *)

Lemma ascii_compare_trans_le (a b c : ascii) :
  Ascii.compare a b <> Gt -> Ascii.compare b c <> Gt ->
  Ascii.compare a c <> Gt
  /\ (Ascii.compare a c = Eq ->
      Ascii.compare a b = Eq /\ Ascii.compare b c = Eq).
Proof.
  unfold Ascii.compare.
  destruct (N.compare_spec (N_of_ascii a) (N_of_ascii b)) as [Hab|Hab|Hab];
    destruct (N.compare_spec (N_of_ascii b) (N_of_ascii c)) as [Hbc|Hbc|Hbc];
    destruct (N.compare_spec (N_of_ascii a) (N_of_ascii c)) as [Hac|Hac|Hac];
    intros H1 H2; split; try congruence; try lia; intros; try discriminate;
    split; try reflexivity; exfalso; lia.
Qed.

Lemma string_leb_trans (s1 s2 s3 : string) :
  String.leb s1 s2 = true -> String.leb s2 s3 = true ->
  String.leb s1 s3 = true.
Proof.
  revert s2 s3.
  induction s1 as [|a s1 IH]; intros [|b s2] [|c s3]; cbn;
    try reflexivity; try discriminate.
  unfold String.leb in *. cbn.
  intros H12 H23.
  destruct (ascii_compare_trans_le a b c) as [Hle Heq].
  - destruct (Ascii.compare a b); [discriminate|discriminate|].
    discriminate H12.
  - destruct (Ascii.compare b c); [discriminate|discriminate|].
    discriminate H23.
  - destruct (Ascii.compare a c) eqn:Hac; [|reflexivity|congruence].
    destruct (Heq eq_refl) as [Eab Ebc].
    rewrite Eab in H12. rewrite Ebc in H23.
    exact (IH s2 s3 H12 H23).
Qed.

Lemma insert_desc_perm (x : application_row) (l : list application_row) :
  Permutation (insert_desc x l) (x :: l).
Proof.
  induction l as [|y l IH]; cbn; [reflexivity|].
  destruct (newer_or_same y x).
  - rewrite IH. apply perm_swap.
  - reflexivity.
Qed.

Lemma insert_desc_sorted (x : application_row) (l : list application_row) :
  StronglySorted newest_first l -> StronglySorted newest_first (insert_desc x l).
Proof.
  induction 1 as [|y l Hl IH Hy]; cbn.
  - constructor; constructor.
  - destruct (newer_or_same y x) eqn:Hyx.
    + constructor; [exact IH|].
      apply (Permutation_Forall (Permutation_sym (insert_desc_perm x l))).
      constructor; [exact Hyx | exact Hy].
    + assert (Hxy : newest_first x y).
      { unfold newest_first. unfold newer_or_same in Hyx.
        destruct (String.leb_total (applied_at x) (applied_at y)) as [H|H];
          [congruence | exact H]. }
      constructor; [constructor; assumption|].
      constructor; [exact Hxy|].
      apply Forall_forall. intros z Hz.
      rewrite Forall_forall in Hy. specialize (Hy z Hz).
      unfold newest_first in *.
      exact (string_leb_trans _ _ _ Hy Hxy).
Qed.

Lemma fold_insert_desc (rows acc : list application_row) :
  StronglySorted newest_first acc ->
  StronglySorted newest_first
    (fold_left (fun sorted x => insert_desc x sorted) rows acc)
  /\ Permutation (fold_left (fun sorted x => insert_desc x sorted) rows acc)
       (rows ++ acc).
Proof.
  revert acc. induction rows as [|x rows IH]; intros acc Hacc; cbn.
  - split; [exact Hacc | reflexivity].
  - destruct (IH (insert_desc x acc) (insert_desc_sorted x acc Hacc))
      as [Hs Hp].
    split; [exact Hs|].
    rewrite Hp. rewrite insert_desc_perm.
    symmetry. apply Permutation_middle.
Qed.

Lemma order_by_applied_at_desc_sorted (rows : list application_row) :
  StronglySorted newest_first (order_by_applied_at_desc rows)
  /\ Permutation (order_by_applied_at_desc rows) rows.
Proof.
  destruct (fold_insert_desc rows [] (SSorted_nil _)) as [Hs Hp].
  split; [exact Hs|].
  rewrite app_nil_r in Hp. exact Hp.
Qed.

(** C9: the requests returned are the rows of [adoption_applications], each
    one once, in descending order of [applied_at], and every item carries
    [id], [adopter_name], [pet_name], [applied_at] and [status]. *)
Theorem requests_sorted_newest_first (db : database) :
  exists rows : list application_row,
    handle_get_requests db =
      JDict [("success", JBool true);
             ("requests",
              JList
                (map (fun row =>
                        JDict [("id", JInt (application_id row));
                               ("adopter_name", JStr (adopter_name row));
                               ("pet_name", JStr (pet_name row));
                               ("applied_at", JStr (applied_at row));
                               ("status", JStr (status row))]) rows))]
    /\ Permutation rows (adoption_applications db)
    /\ StronglySorted
         (fun a b => String.leb (applied_at b) (applied_at a) = true) rows.
Proof.
  exists (order_by_applied_at_desc (adoption_applications db)).
  destruct (order_by_applied_at_desc_sorted (adoption_applications db))
    as [Hs Hp].
  split; [reflexivity|]. split; [exact Hp | exact Hs].
Qed.

(** ** The router *)

Lemma not_in_eqb_false (s : string) (l : list string) (t : string) :
  ~ In s l -> In t l -> String.eqb s t = false.
Proof.
  intros Hs Ht. apply String.eqb_neq. intros ->. exact (Hs Ht).
Qed.

(** [handle_add_pet] and [handle_adopt_pet] wrap their whole body in
    [try ... except Exception]: whatever the request, they answer. *)
Lemma handle_adopt_pet_answers (now : string) (data : json) (db : database) :
  (exists db', handle_adopt_pet now data db = (success, db'))
  \/ (exists msg, handle_adopt_pet now data db = (failure msg, db)).
Proof.
  unfold handle_adopt_pet, try_except.
  match goal with
  | |- context [match ?b with Ok _ => _ | Raise _ => _ end] =>
      destruct b as [[r db']|e] eqn:Hb
  end.
  - left. exists db'.
    repeat match type of Hb with
    | bind ?x _ = _ => destruct x; cbn [bind] in Hb; [|discriminate Hb]
    end.
    injection Hb as <- <-. reflexivity.
  - right. exists (exn_str e). reflexivity.
Qed.

(** A body that [json.loads] refuses makes [do_POST] raise. *)
Lemma do_POST_body_not_json (now : string) (req : http_request)
    (db : database) (n : Z) (e : exn) :
  py_int (header_value (content_length req)) = Ok n ->
  json_loads (rfile_read n (rfile req)) = Raise e ->
  do_POST now req db = Raise e.
Proof.
  intros Hn Hbody. unfold do_POST. rewrite Hn. cbn [bind]. rewrite Hbody.
  reflexivity.
Qed.

(** [handle_register] hashes the password before its [try]: a request
    without [password] raises there. *)
Lemma register_without_password_raises (now : string) (db : database) :
  handle_register now
    (JDict [("username", JStr "sam"); ("email", JStr "sam@example.com")]) db
  = Raise (no_attribute JNull "encode").
Proof. reflexivity. Qed.

(** [handle_compatibility_check] has no [try]: a [pet_id] that [sqlite3]
    cannot bind raises. *)
Lemma compatibility_check_list_pet_id_raises (db : database) :
  handle_compatibility_check (JDict [("pet_id", JList [JInt 1])]) db
  = Raise (mkExn ProgrammingError
             "Error binding parameter 1: type 'list' is not supported").
Proof. reflexivity. Qed.

(** An exception of [handle_compatibility_check] leaves [do_POST]. *)
Lemma do_POST_match_raises (now : string) (req : http_request)
    (db : database) (n : Z) (data : json) (e : exn) :
  path req = "/api/ai/match" ->
  py_int (header_value (content_length req)) = Ok n ->
  json_loads (rfile_read n (rfile req)) = Ok data ->
  handle_compatibility_check data db = Raise e ->
  do_POST now req db = Raise e.
Proof.
  intros Hpath Hn Hbody He. unfold do_POST.
  rewrite Hn. cbn [bind]. rewrite Hbody. cbn [bind]. rewrite Hpath.
  cbn [String.eqb Ascii.eqb Bool.eqb]. rewrite He. reflexivity.
Qed.

(** C5: the claim fails at the integer [pet_id] 2^63, which is the
    identifier of no animal (SQLite's identifiers have 64 bits), whatever
    the database holds: [sqlite3] raises [OverflowError] when it binds the
    parameter of the [SELECT], [handle_compatibility_check] has no [try],
    and the exception leaves [do_POST]: no "Pet not found" is sent, nor
    any other response. *)
Theorem huge_pet_id_escapes (now : string) (req : http_request)
    (db : database) (n : Z) :
  path req = "/api/ai/match" ->
  py_int (header_value (content_length req)) = Ok n ->
  json_loads (rfile_read n (rfile req)) =
    Ok (JDict [("pet_id", JInt (2 ^ 63))]) ->
  do_POST now req db =
  Raise (mkExn OverflowError
           "Python int too large to convert to SQLite INTEGER").
Proof.
  intros Hpath Hn Hbody.
  apply (do_POST_match_raises now req db n _ _ Hpath Hn Hbody).
  reflexivity.
Qed.

(** C6: a login request whose body is the JSON object with [username] and
    [user_type] and no [password] makes [handle_login] raise
    [AttributeError] at [password.encode()]; [do_POST] has no handler for
    it, so the exception leaves [do_POST] and no response is sent. *)
Theorem login_without_password_escapes (now : string) (req : http_request)
    (db : database) (n : Z) :
  path req = "/api/login" ->
  py_int (header_value (content_length req)) = Ok n ->
  json_loads (rfile_read n (rfile req)) =
    Ok (JDict [("username", JStr "admin"); ("user_type", JStr "admin")]) ->
  do_POST now req db =
  Raise (mkExn AttributeError "'NoneType' object has no attribute 'encode'").
Proof.
  intros Hpath Hn Hbody. unfold do_POST.
  rewrite Hn. cbn [bind]. rewrite Hbody. cbn [bind]. rewrite Hpath.
  reflexivity.
Qed.

(** C7, as the code has it: a POST whose path is none of the six POST
    endpoints, and whose [Content-Length] and body decode, is answered with
    status 200 and [{success: false, message: "Unknown endpoint"}], the
    database unchanged; a GET whose path is none of [/], [/index.html] and
    [/api/pets] is answered with status 404 and no body. *)
Theorem unknown_path_post_200_get_404 :
  (forall (now : string) (req : http_request) (db : database) (n : Z)
          (data : json),
     ~ In (path req) post_endpoints ->
     py_int (header_value (content_length req)) = Ok n ->
     json_loads (rfile_read n (rfile req)) = Ok data ->
     do_POST now req db =
     Ok (mkResponse 200 (Some "application/json")
           (JsonBody (JDict [("success", JBool false);
                             ("message", JStr "Unknown endpoint")])), db))
  /\ (forall (req : http_request) (db : database),
        ~ In (path req) get_paths ->
        do_GET req db = mkResponse 404 None NoBody).
Proof.
  split.
  - intros now req db n data Hpath Hn Hbody. unfold do_POST.
    rewrite Hn. cbn [bind]. rewrite Hbody. cbn [bind].
    rewrite !(not_in_eqb_false _ _ _ Hpath) by (cbn; tauto).
    reflexivity.
  - intros req db Hpath. unfold do_GET.
    rewrite !(not_in_eqb_false _ _ _ Hpath) by (cbn; tauto).
    reflexivity.
Qed.

(** ** More on the scorer *)

(** X1: for a pet whose activity level is not High, the yard plays no part
    and a Beginner is scored like an Intermediate. *)
Theorem yard_and_beginner_matter_only_for_high (pet : pet_traits)
    (yard yard' children others : bool) (level : json) :
  activity_level pet <> "High" ->
  score_pet pet (mkApplicant yard children others level)
  = score_pet pet (mkApplicant yard' children others level)
  /\ score_pet pet (mkApplicant yard children others (JStr "Beginner"))
     = score_pet pet (mkApplicant yard children others (JStr "Intermediate")).
Proof.
  intros Hact. apply String.eqb_neq in Hact.
  unfold score_pet, accumulate;
    cbn [species activity_level age_months has_yard has_children
         has_other_pets experience_level py_eq_str].
  rewrite Hact. cbn [andb String.eqb Ascii.eqb Bool.eqb].
  split; reflexivity.
Qed.

(** X2: a favourable circumstance never lowers the percentage: a yard, the
    Experienced level, no children, no other pets, the species Dog. *)
Theorem favourable_circumstances_never_lower (pet : pet_traits)
    (yard children others : bool) (level : json) :
  percentage_of pet (mkApplicant false children others level)
    <= percentage_of pet (mkApplicant true children others level)
  /\ percentage_of pet (mkApplicant yard children others level)
     <= percentage_of pet (mkApplicant yard children others (JStr "Experienced"))
  /\ percentage_of pet (mkApplicant yard true others level)
     <= percentage_of pet (mkApplicant yard false others level)
  /\ percentage_of pet (mkApplicant yard children true level)
     <= percentage_of pet (mkApplicant yard children false level)
  /\ percentage_of pet (mkApplicant yard children others level)
     <= percentage_of (mkTraits "Dog" (activity_level pet) (age_months pet))
          (mkApplicant yard children others level).
Proof.
  destruct pet as [sp act age].
  unfold percentage_of, score_pet, accumulate, clamp;
    cbn [species activity_level age_months has_yard has_children
         has_other_pets experience_level py_eq_str compatibility_percentage
         String.eqb Ascii.eqb Bool.eqb].
  destruct (String.eqb act "High"), yard,
    (py_eq_str level "Beginner"), (py_eq_str level "Experienced"),
    children, (age <? 12), others, (String.eqb sp "Dog");
    cbn; repeat split; lia.
Qed.

(** X3: no penalty goes unexplained: the percentage is 100 or at least one
    reason is given; and there are never more than four reasons. *)
Theorem penalties_are_explained (pet : pet_traits) (a : applicant) :
  (compatibility_percentage (score_pet pet a) = 100
   \/ reasons (score_pet pet a) <> [])
  /\ (List.length (reasons (score_pet pet a)) <= 4)%nat.
Proof.
  destruct pet as [sp act age], a as [yard children others level].
  unfold score_pet, accumulate, clamp;
    cbn [species activity_level age_months has_yard has_children
         has_other_pets experience_level].
  destruct (String.eqb act "High"), yard,
    (py_eq_str level "Beginner"), (py_eq_str level "Experienced"),
    children, (age <? 12), others, (String.eqb sp "Dog");
    cbn; split; try lia; try (left; reflexivity); right; discriminate.
Qed.

(** X4: the colour that the page gives to a score agrees with the message,
    and a score returned by the scorer is never shown in [text-danger]. *)
Theorem score_colour_agrees_with_message (pet : pet_traits) (a : applicant) :
  In (colorClass (compatibility_percentage (score_pet pet a)),
      message (score_pet pet a))
    [("text-success", excellent_message); ("text-primary", good_message);
     ("text-warning", fair_message)].
Proof.
  pose proof (accumulate_range pet a) as Hr.
  unfold score_pet. destruct (accumulate pet a) as [score rs].
  cbn [fst] in Hr. cbn [compatibility_percentage message].
  unfold colorClass, select_message, clamp.
  destruct (Z.geb_spec (Z.max 0 (Z.min 100 score)) 80); [left; reflexivity|].
  destruct (Z.geb_spec (Z.max 0 (Z.min 100 score)) 60);
    [right; left; reflexivity|].
  destruct (Z.geb_spec (Z.max 0 (Z.min 100 score)) 40);
    [right; right; left; reflexivity|lia].
Qed.

(** ** Login *)




(** ** The schema's constraints hold in every state the server reaches *)

Lemma NoDup_snoc {A : Type} (l : list A) (x : A) :
  NoDup l -> ~ In x l -> NoDup (l ++ [x]).
Proof.
  intros Hl Hx. apply NoDup_app; [exact Hl | repeat constructor; auto|].
  intros y Hy [<-|[]]. exact (Hx Hy).
Qed.

Lemma sorted_snoc (l : list Z) (x : Z) :
  StronglySorted Z.lt l -> Forall (fun y => y < x) l ->
  StronglySorted Z.lt (l ++ [x]).
Proof.
  induction 1 as [|y l Hl IH Hy]; intros Hx; cbn.
  - repeat constructor.
  - inversion Hx as [|? ? Hyx Hlx]; subst.
    constructor; [apply IH; exact Hlx|].
    apply Forall_app. split; [exact Hy | repeat constructor; exact Hyx].
Qed.

Lemma ids_snoc {A : Type} (id : A -> Z) (l : list A) (x : A) (seq : Z) :
  StronglySorted Z.lt (map id l) ->
  Forall (fun r => 1 <= id r <= seq) l ->
  id x = seq + 1 -> 0 <= seq ->
  StronglySorted Z.lt (map id (l ++ [x]))
  /\ Forall (fun r => 1 <= id r <= seq + 1) (l ++ [x]).
Proof.
  intros Hs Hb Hx Hseq. split.
  - rewrite map_app. cbn. apply sorted_snoc; [exact Hs|].
    apply Forall_map. eapply Forall_impl; [|exact Hb].
    cbn. intros r Hr. lia.
  - apply Forall_app. split.
    + eapply Forall_impl; [|exact Hb]. cbn. intros r Hr. lia.
    + repeat constructor; lia.
Qed.

Lemma existsb_false_not_in (f : user_row -> string) (l : list user_row)
    (s : string) :
  existsb (fun r => String.eqb (f r) s) l = false -> ~ In s (map f l).
Proof.
  intros Hx Hin. apply in_map_iff in Hin. destruct Hin as [r [Hr Hin]].
  rewrite (existsb_In _ _ r Hin) in Hx; [discriminate|].
  rewrite Hr. apply String.eqb_refl.
Qed.

Lemma empty_db_wf : db_wf empty_db.
Proof. constructor; cbn; repeat constructor; lia. Qed.

Lemma insert_user_wf (uv ev : sqlval) (hash kind now : string)
    (db db' : database) :
  db_wf db -> insert_user uv ev hash kind now db = Ok db' -> db_wf db'.
Proof.
  intros [Hun Hem Hid Hseq Hty Haid Haseq Hach Hpid Hpseq Hpst Hs] Hins.
  unfold insert_user, not_null, check, unique in Hins.
  destruct (text_affinity uv) as [u|]; [|discriminate Hins].
  destruct (text_affinity ev) as [e|]; [|discriminate Hins].
  cbn [bind] in Hins.
  destruct (mem_string kind ["admin"; "adopter"]) eqn:Hk;
    [|discriminate Hins].
  cbn [bind] in Hins.
  destruct (existsb (fun r => String.eqb (username r) u) (users db)) eqn:Hxu;
    [discriminate Hins|].
  cbn [bind] in Hins.
  destruct (existsb (fun r => String.eqb (email r) e) (users db)) eqn:Hxe;
    [discriminate Hins|].
  cbn [bind] in Hins. injection Hins as <-.
  destruct (ids_snoc user_id (users db)
              (mkUser (seq_users db + 1) u e hash kind now) (seq_users db)
              Hid Hseq eq_refl (proj1 Hs)) as [Hid' Hseq'].
  constructor; cbn [users animals adoption_applications seq_users seq_animals
                    seq_applications]; try assumption.
  - rewrite map_app. apply NoDup_snoc; [exact Hun|].
    exact (existsb_false_not_in username _ _ Hxu).
  - rewrite map_app. apply NoDup_snoc; [exact Hem|].
    exact (existsb_false_not_in email _ _ Hxe).
  - apply Forall_app. split; [exact Hty | repeat constructor; exact Hk].
  - lia.
Qed.

Lemma insert_animal_shape (n s b c : sqlval) (age : Z) (g : sqlval) (v : Z)
    (a : sqlval) (w : float) (d p : sqlval) (now : string)
    (db db' : database) :
  insert_animal n s b c age g v a w d p now db = Ok db' ->
  exists row : animal_row,
    db' = mkDb (users db) (animals db ++ [row]) (adoption_applications db)
            (seq_users db) (seq_animals db + 1) (seq_applications db)
    /\ animal_id row = seq_animals db + 1
    /\ text_affinity n = Some (name row)
    /\ text_affinity s = Some (animal_species row)
    /\ text_affinity b = Some (breed row)
    /\ text_affinity c = Some (color row)
    /\ animal_age_months row = age
    /\ text_affinity g = Some (gender row)
    /\ vaccinated row = v
    /\ text_affinity a = Some (animal_activity_level row)
    /\ weight_kg row = w
    /\ description row = text_affinity d
    /\ profile_photo_url row = text_affinity p
    /\ animal_created_at row = now
    /\ mem_string (gender row) ["Male"; "Female"] = true
    /\ (v = 0 \/ v = 1)
    /\ mem_string (animal_activity_level row) ["Low"; "Medium"; "High"] = true
    /\ PrimFloat.is_nan w = false.
Proof.
  unfold insert_animal, not_null, not_null_any, check.
  destruct (text_affinity n) as [n'|]; [|discriminate].
  destruct (text_affinity s) as [s'|]; [|discriminate].
  destruct (text_affinity b) as [b'|]; [|discriminate].
  destruct (text_affinity c) as [c'|]; [|discriminate].
  destruct (text_affinity g) as [g'|]; [|discriminate].
  destruct (text_affinity a) as [a'|]; [|discriminate].
  cbn [bind].
  destruct (PrimFloat.is_nan w) eqn:Hw; [discriminate|].
  cbn [bind].
  destruct (mem_string g' ["Male"; "Female"]) eqn:Hg; [|discriminate].
  cbn [bind].
  destruct ((v =? 0) || (v =? 1)) eqn:Hv; [|discriminate].
  cbn [bind].
  destruct (mem_string a' ["Low"; "Medium"; "High"]) eqn:Ha; [|discriminate].
  cbn [bind]. intros H. injection H as <-.
  eexists. split; [reflexivity|].
  cbn. repeat split; try reflexivity; try assumption.
  apply orb_prop in Hv. destruct Hv as [Hv|Hv]; apply Z.eqb_eq in Hv; auto.
Qed.

Lemma insert_animal_wf (n s b c : sqlval) (age : Z) (g : sqlval) (v : Z)
    (a : sqlval) (w : float) (d p : sqlval) (now : string)
    (db db' : database) :
  db_wf db -> insert_animal n s b c age g v a w d p now db = Ok db' ->
  db_wf db'.
Proof.
  intros [Hun Hem Hid Hseq Hty Haid Haseq Hach Hpid Hpseq Hpst Hs] Hins.
  apply insert_animal_shape in Hins.
  destruct Hins as (row & -> & Hrid & _ & _ & _ & _ & _ & _ & Hvr & _ & Hw
                    & _ & _ & _ & Hg & Hv & Ha & Hnan).
  destruct (ids_snoc animal_id (animals db) row (seq_animals db)
              Haid Haseq Hrid (proj1 (proj2 Hs))) as [Hid' Hseq'].
  constructor; cbn [users animals adoption_applications seq_users seq_animals
                    seq_applications]; try assumption.
  - apply Forall_app. split; [exact Hach|].
    constructor; [|constructor].
    split; [exact Hg|]. split; [rewrite Hvr; exact Hv|].
    split; [exact Ha|]. rewrite Hw. exact Hnan.
  - lia.
Qed.

Lemma insert_application_shape (a b c d : sqlval) (now : string)
    (db db' : database) :
  insert_application a b c d now db = Ok db' ->
  exists an pn : string,
    text_affinity c = Some an /\ text_affinity d = Some pn
    /\ a <> SNull /\ b <> SNull
    /\ db' = mkDb (users db) (animals db)
               (adoption_applications db ++
                  [mkApplication (seq_applications db + 1)
                     (integer_affinity a) (integer_affinity b) an pn
                     "pending" now])
               (seq_users db) (seq_animals db) (seq_applications db + 1).
Proof.
  unfold insert_application, not_null, not_null_any.
  destruct a; try discriminate; destruct b; try discriminate; cbn [bind];
    (destruct (text_affinity c) as [an|]; [|discriminate]);
    (destruct (text_affinity d) as [pn|]; [|discriminate]);
    cbn [bind]; intros H; injection H as <-;
    exists an, pn; repeat split; discriminate.
Qed.

Lemma insert_application_wf (a b c d : sqlval) (now : string)
    (db db' : database) :
  db_wf db -> insert_application a b c d now db = Ok db' -> db_wf db'.
Proof.
  intros [Hun Hem Hid Hseq Hty Haid Haseq Hach Hpid Hpseq Hpst Hs] Hins.
  apply insert_application_shape in Hins.
  destruct Hins as (an & pn & _ & _ & Ha & Hb & ->).
  destruct (ids_snoc application_id (adoption_applications db)
              (mkApplication (seq_applications db + 1) (integer_affinity a)
                 (integer_affinity b) an pn "pending" now)
              (seq_applications db) Hpid Hpseq eq_refl (proj2 (proj2 Hs)))
    as [Hid' Hseq'].
  constructor; cbn [users animals adoption_applications seq_users seq_animals
                    seq_applications]; try assumption.
  - apply Forall_app. split; [exact Hpst|].
    constructor; [|constructor]. reflexivity.
  - lia.
Qed.

(** The three ways [handle_register] can end. *)
Lemma handle_register_cases (now : string) (data : json) (db : database)
    (r : json) (db' : database) :
  handle_register now data db = Ok (r, db') ->
  (r = success
   /\ exists (uv ev : sqlval) (hash : string),
        insert_user uv ev hash "adopter" now db = Ok db')
  \/ (r = failure "Username or email already exists" /\ db' = db).
Proof.
  unfold handle_register. intros H.
  repeat match type of H with
  | bind ?x _ = _ => destruct x eqn:?; cbn [bind] in H; [|discriminate H]
  end.
  unfold except_integrity_error in H.
  match type of H with
  | match ?b with Ok _ => _ | Raise _ => _ end = _ => destruct b as [[r0 d0]|e] eqn:Hb
  end.
  - injection H as <- <-. left.
    repeat match type of Hb with
    | bind ?x _ = _ => destruct x eqn:?; cbn [bind] in Hb; [|discriminate Hb]
    end.
    injection Hb as <- <-. split; [reflexivity|].
    eexists _, _, _. eassumption.
  - destruct (exn_cls e); try discriminate H.
    injection H as <- <-. right. split; reflexivity.
Qed.

(** The two ways [handle_add_pet] can end: one row appended to [animals],
    which passes the [CHECK] constraints, or a failure message and the
    database as it was. *)
Lemma handle_add_pet_cases (now : string) (data : json) (db : database) :
  (exists row : animal_row,
     handle_add_pet now data db =
       (success,
        mkDb (users db) (animals db ++ [row]) (adoption_applications db)
          (seq_users db) (seq_animals db + 1) (seq_applications db))
     /\ animal_id row = seq_animals db + 1
     /\ animal_created_at row = now
     /\ exists n s b c g a d p : sqlval,
          insert_animal n s b c (animal_age_months row) g (vaccinated row) a
            (weight_kg row) d p now db
          = Ok (mkDb (users db) (animals db ++ [row])
                  (adoption_applications db)
                  (seq_users db) (seq_animals db + 1) (seq_applications db)))
  \/ (exists msg : string, handle_add_pet now data db = (failure msg, db)).
Proof.
  unfold handle_add_pet, try_except.
  match goal with
  | |- context [match ?b with Ok _ => _ | Raise _ => _ end] =>
      destruct b as [[r db']|e] eqn:Hb
  end.
  - left.
    repeat match type of Hb with
    | bind ?x _ = _ => destruct x eqn:?; cbn [bind] in Hb; [|discriminate Hb]
    end.
    injection Hb as <- <-.
    match goal with
    | H : insert_animal _ _ _ _ _ _ _ _ _ _ _ _ _ = Ok _ |- _ =>
        pose proof (insert_animal_shape _ _ _ _ _ _ _ _ _ _ _ _ _ _ H) as Hs;
        destruct Hs as (row & Hdb & Hrid & _ & _ & _ & _ & Hage & _ & Hv & _
                        & Hw & _ & _ & Hnow & _);
        exists row; rewrite Hdb in H |- *; subst;
        split; [reflexivity|]; split; [exact Hrid|]; split; [reflexivity|];
        eexists _, _, _, _, _, _, _, _; exact H
    end.
  - right. exists (exn_str e). reflexivity.
Qed.

(** The two ways [handle_adopt_pet] can end. *)
Lemma handle_adopt_pet_cases (now : string) (data : json) (db : database) :
  (exists (a b c d : sqlval) (db' : database),
     handle_adopt_pet now data db = (success, db')
     /\ insert_application a b c d now db = Ok db')
  \/ (exists msg : string, handle_adopt_pet now data db = (failure msg, db)).
Proof.
  unfold handle_adopt_pet, try_except.
  match goal with
  | |- context [match ?b with Ok _ => _ | Raise _ => _ end] =>
      destruct b as [[r db']|e] eqn:Hb
  end.
  - left.
    repeat match type of Hb with
    | bind ?x _ = _ => destruct x eqn:?; cbn [bind] in Hb; [|discriminate Hb]
    end.
    injection Hb as <- <-.
    eexists _, _, _, _, _. split; [reflexivity|eassumption].
  - right. exists (exn_str e). reflexivity.
Qed.

(** ** What [do_POST] does when it answers *)

(** The handler that [do_POST] dispatches to, for each path. *)
Lemma do_POST_cases (now : string) (req : http_request) (db : database)
    (resp : http_response) (db' : database) :
  do_POST now req db = Ok (resp, db') ->
  exists (data r : json),
    resp = mkResponse 200 (Some "application/json") (JsonBody r)
    /\ ((path req = "/api/login" /\ handle_login data db = Ok r /\ db' = db)
        \/ (path req = "/api/register"
            /\ handle_register now data db = Ok (r, db'))
        \/ (path req = "/api/pets" /\ handle_add_pet now data db = (r, db'))
        \/ (path req = "/api/requests"
            /\ r = handle_get_requests db /\ db' = db)
        \/ (path req = "/api/adopt" /\ handle_adopt_pet now data db = (r, db'))
        \/ (path req = "/api/ai/match"
            /\ handle_compatibility_check data db = Ok r /\ db' = db)
        \/ (~ In (path req) post_endpoints
            /\ r = failure "Unknown endpoint" /\ db' = db)).
Proof.
  unfold do_POST. intros H.
  destruct (py_int (header_value (content_length req))) as [n|];
    [|discriminate H].
  cbn [bind] in H.
  destruct (json_loads (rfile_read n (rfile req))) as [data|];
    [|discriminate H].
  cbn [bind] in H. exists data.
  destruct (String.eqb_spec (path req) "/api/login") as [E1|E1].
  { destruct (handle_login data db) as [r|] eqn:Hl; [|discriminate H].
    cbn [bind] in H. injection H as <- <-. exists r. split; [reflexivity|].
    left. auto. }
  destruct (String.eqb_spec (path req) "/api/register") as [E2|E2].
  { destruct (handle_register now data db) as [[r d]|] eqn:Hl;
      [|discriminate H].
    cbn [bind] in H. injection H as <- <-. exists r. split; [reflexivity|].
    right; left. auto. }
  destruct (String.eqb_spec (path req) "/api/pets") as [E3|E3].
  { destruct (handle_add_pet now data db) as [r d] eqn:Hl.
    cbn [bind] in H. injection H as <- <-. exists r. split; [reflexivity|].
    right; right; left. auto. }
  destruct (String.eqb_spec (path req) "/api/requests") as [E4|E4].
  { cbn [bind] in H. injection H as <- <-. eexists. split; [reflexivity|].
    right; right; right; left. auto. }
  destruct (String.eqb_spec (path req) "/api/adopt") as [E5|E5].
  { destruct (handle_adopt_pet now data db) as [r d] eqn:Hl.
    cbn [bind] in H. injection H as <- <-. exists r. split; [reflexivity|].
    right; right; right; right; left. auto. }
  destruct (String.eqb_spec (path req) "/api/ai/match") as [E6|E6].
  { destruct (handle_compatibility_check data db) as [r|] eqn:Hl;
      [|discriminate H].
    cbn [bind] in H. injection H as <- <-. exists r. split; [reflexivity|].
    right; right; right; right; right; left. auto. }
  cbn [bind] in H. injection H as <- <-. eexists. split; [reflexivity|].
  right; right; right; right; right; right.
  split; [|split; reflexivity].
  cbn. intros [E|[E|[E|[E|[E|[E|[]]]]]]]; congruence.
Qed.

(** A request that [do_POST] answers keeps [db_wf]. *)
Lemma do_POST_wf (now : string) (req : http_request)
    (db : database) (resp : http_response) (db' : database) :
  db_wf db -> do_POST now req db = Ok (resp, db') -> db_wf db'.
Proof.
  intros Hwf H.
  destruct (do_POST_cases now req db resp db' H) as (data & r & _ & Hc).
  destruct Hc as [(_ & _ & ->)|[(_ & Hr)|[(_ & Hr)|[(_ & _ & ->)|[(_ & Hr)
    |[(_ & _ & ->)|(_ & _ & ->)]]]]]]; try exact Hwf.
  - apply handle_register_cases in Hr.
    destruct Hr as [(_ & uv & ev & hash & Hins)|(_ & ->)]; [|exact Hwf].
    exact (insert_user_wf _ _ _ _ _ _ _ Hwf Hins).
  - destruct (handle_add_pet_cases now data db)
      as [(row & Heq & _ & _ & n & s & b & c & g & a & d & p & Hins)
         |(msg & Heq)];
      rewrite Heq in Hr; injection Hr as <- <-; [|exact Hwf].
    exact (insert_animal_wf _ _ _ _ _ _ _ _ _ _ _ _ _ _ Hwf Hins).
  - destruct (handle_adopt_pet_cases now data db)
      as [(a & b & c & d & d' & Heq & Hins)|(msg & Heq)];
      rewrite Heq in Hr; injection Hr as <- <-; [|exact Hwf].
    exact (insert_application_wf _ _ _ _ _ _ _ Hwf Hins).
Qed.

(** X7: the constraints of the schema survive every request that [do_POST]
    answers: usernames and emails stay unique, identifiers stay distinct,
    increasing and at most the last one handed out, user types, genders,
    vaccination flags and activity levels stay in their value sets, no
    weight is a NaN, and every application stays pending. *)
Theorem do_POST_keeps_schema_constraints (now : string) (req : http_request)
    (db : database) (resp : http_response) (db' : database) :
  db_wf db -> do_POST now req db = Ok (resp, db') -> db_wf db'.
Proof. exact (do_POST_wf now req db resp db'). Qed.

Lemma handle_login_envelope (data : json) (db : database) (r : json) :
  handle_login data db = Ok r ->
  (exists items, r = JDict (("success", JBool true) :: items))
  \/ (exists msg, r = failure msg).
Proof.
  unfold handle_login. intros H.
  repeat match type of H with
  | bind ?x _ = _ => destruct x eqn:?; cbn [bind] in H; [|discriminate H]
  end.
  match type of H with
  | match ?f with Some _ => _ | None => _ end = _ => destruct f
  end; injection H as <-; [left|right]; eexists; reflexivity.
Qed.

Lemma handle_compatibility_check_envelope (data : json) (db : database)
    (r : json) :
  handle_compatibility_check data db = Ok r ->
  (exists items, r = JDict (("success", JBool true) :: items))
  \/ (exists msg, r = failure msg).
Proof.
  unfold handle_compatibility_check. intros H.
  repeat match type of H with
  | bind ?x _ = _ => destruct x eqn:?; cbn [bind] in H; [|discriminate H]
  end.
  match type of H with
  | match ?f with Some _ => _ | None => _ end = _ => destruct f
  end; injection H as <-; [left|right]; eexists; reflexivity.
Qed.

(** X8: whenever [do_POST] answers, the status is 200, the content type is
    JSON and the body is an object that starts with [success]: either
    [success: true] or exactly [{success: false, message}]; and a
    request answered with [success: false] leaves the database as it
    was. *)
Theorem do_POST_answers_with_envelope (now : string) (req : http_request)
    (db : database) (resp : http_response) (db' : database) :
  do_POST now req db = Ok (resp, db') ->
  status_code resp = 200
  /\ content_type resp = Some "application/json"
  /\ ((exists items,
         body resp = JsonBody (JDict (("success", JBool true) :: items)))
      \/ (exists msg, body resp = JsonBody (failure msg) /\ db' = db)).
Proof.
  intros H.
  destruct (do_POST_cases now req db resp db' H) as (data & r & -> & Hc).
  split; [reflexivity|]. split; [reflexivity|]. cbn [body].
  destruct Hc as [(_ & Hr & ->)|[(_ & Hr)|[(_ & Hr)|[(_ & -> & ->)|[(_ & Hr)
    |[(_ & Hr & ->)|(_ & -> & ->)]]]]]].
  - destruct (handle_login_envelope _ _ _ Hr) as [[items ->]|[msg ->]];
      [left|right]; eexists; eauto.
  - apply handle_register_cases in Hr.
    destruct Hr as [(-> & _)|(-> & ->)]; [left|right]; eexists; eauto.
    reflexivity.
  - destruct (handle_add_pet_cases now data db)
      as [(row & Heq & _)|(msg & Heq)];
      rewrite Heq in Hr; injection Hr as <- <-; [left|right]; eexists; eauto.
    reflexivity.
  - left. eexists. reflexivity.
  - destruct (handle_adopt_pet_cases now data db)
      as [(a & b & c & d & d' & Heq & _)|(msg & Heq)];
      rewrite Heq in Hr; injection Hr as <- <-; [left|right]; eexists; eauto.
    reflexivity.
  - destruct (handle_compatibility_check_envelope _ _ _ Hr)
      as [[items ->]|[msg ->]]; [left|right]; eexists; eauto.
  - right. eexists; eauto.
Qed.

(** ** Adding and listing pets *)



Lemma handle_add_pet_success_fields (now : string)
    (items : list (string * json)) (db db' : database) (k : string) :
  handle_add_pet now (JDict items) db = (success, db') ->
  In k pet_fields -> assoc k items <> None.
Proof.
  unfold handle_add_pet, try_except.
  match goal with
  | |- context [match ?b with Ok _ => _ | Raise _ => _ end] =>
      destruct b as [[r d]|e] eqn:Hb
  end; [|discriminate].
  intros _ Hin Hk.
  repeat match type of Hb with
  | bind ?x _ = _ => destruct x eqn:?; cbn [bind] in Hb; [|discriminate Hb]
  end.
  unfold py_getitem in *.
  cbn in Hin.
  repeat (destruct Hin as [<-|Hin];
          [rewrite Hk in *; discriminate|]).
  exact Hin.
Qed.

(** X10: a request to add a pet that lacks any one of the eleven fields is
    answered with [success: false] and a message, and nothing is stored. *)
Theorem add_pet_missing_field_rejected (now : string)
    (items : list (string * json)) (db : database) (k : string) :
  In k ["name"; "species"; "breed"; "color"; "age_months"; "gender";
        "vaccinated"; "activity_level"; "weight_kg"; "description";
        "profile_photo_url"] ->
  assoc k items = None ->
  exists msg : string,
    handle_add_pet now (JDict items) db = (failure msg, db).
Proof.
  intros Hin Hk.
  destruct (handle_add_pet_cases now (JDict items) db)
    as [(row & Heq & _)|Hfail]; [|exact Hfail].
  exfalso.
  exact (handle_add_pet_success_fields now items db _ k Heq Hin Hk).
Qed.

(** ** Adoption requests *)

Lemma sql_bind_int64 (pos n : Z) :
  - 2 ^ 63 <= n < 2 ^ 63 -> sql_bind pos (JInt n) = Ok (SInt n).
Proof.
  intros Hn. unfold sql_bind.
  destruct (Z.leb_spec (- 2 ^ 63) n); [|lia].
  destruct (Z.ltb_spec n (2 ^ 63)); [|lia]. reflexivity.
Qed.







(** ** Looking a pet up by its identifier *)

Lemma find_by_id (rows : list animal_row) (row : animal_row) :
  StronglySorted Z.lt (map animal_id rows) -> In row rows ->
  find (fun r => animal_id r =? animal_id row) rows = Some row.
Proof.
  induction rows as [|y rows IH]; intros Hs Hin; [contradiction|].
  cbn in Hs. apply StronglySorted_inv in Hs. destruct Hs as [Hs Hy].
  cbn. destruct Hin as [->|Hin].
  - rewrite Z.eqb_refl. reflexivity.
  - rewrite Forall_forall in Hy.
    specialize (Hy (animal_id row) (in_map animal_id _ _ Hin)).
    destruct (Z.eqb_spec (animal_id y) (animal_id row)); [lia|].
    exact (IH Hs Hin).
Qed.

(** X13: in a database that satisfies the schema's constraints, a
    compatibility check with the identifier of a stored pet scores the
    species, activity level and age of that very row with the applicant's
    answers, and that activity level is Low, Medium or High. *)
Theorem compatibility_check_scores_the_row (items : list (string * json))
    (db : database) (row : animal_row) :
  db_wf db ->
  In row (animals db) ->
  animal_id row < 2 ^ 63 ->
  assoc "pet_id" items = Some (JInt (animal_id row)) ->
  exists a : applicant,
    read_applicant (JDict items) = Ok a
    /\ handle_compatibility_check (JDict items) db
       = Ok (compatibility_response
               (score_pet
                  (mkTraits (animal_species row) (animal_activity_level row)
                     (animal_age_months row)) a))
    /\ In (animal_activity_level row) ["Low"; "Medium"; "High"].
Proof.
  intros Hwf Hin Hmax Hid.
  pose proof (wf_animal_seq db Hwf) as Hseq.
  rewrite Forall_forall in Hseq. specialize (Hseq row Hin).
  destruct (handle_compatibility_check_dict items db (JInt (animal_id row))
              (SInt (animal_id row))) as [a [Ha Hres]].
  - unfold py_get. rewrite Hid. reflexivity.
  - apply sql_bind_int64. lia.
  - exists a. split; [exact Ha|]. split.
    + rewrite Hres. unfold select_pet. cbn [id_eq].
      rewrite (find_by_id _ _ (wf_animal_ids db Hwf) Hin). reflexivity.
    + pose proof (wf_animal_checks db Hwf) as Hchk.
      rewrite Forall_forall in Hchk.
      destruct (Hchk row Hin) as (_ & _ & Hact & _).
      unfold mem_string in Hact. apply existsb_exists in Hact.
      destruct Hact as [s [Hs Heq]]. apply String.eqb_eq in Heq.
      rewrite Heq. exact Hs.
Qed.

(** ** [init_database] *)

Lemma insert_sample_pet_ok (now : string) (db : database) (pet : sample_pet) :
  sample_ok pet = true ->
  insert_sample_pet now (Ok db) pet =
  Ok (mkDb (users db)
        (animals db ++ [sample_row now (seq_animals db + 1) pet])
        (adoption_applications db)
        (seq_users db) (seq_animals db + 1) (seq_applications db)).
Proof.
  destruct pet as [[[[[[[[[[n s] b] c] age] g] v] a] w] d] p].
  unfold sample_ok, insert_sample_pet, sample_row, insert_animal.
  intros H.
  apply andb_prop in H. destruct H as [H Hw].
  apply andb_prop in H. destruct H as [H Ha].
  apply andb_prop in H. destruct H as [Hg Hv].
  apply negb_true_iff in Hw.
  cbn [bind not_null text_affinity]. rewrite Hw.
  cbn [not_null_any bind]. unfold check. rewrite Hg, Hv, Ha.
  reflexivity.
Qed.

Lemma fold_insert_sample_pets (now : string) (pets : list sample_pet) :
  forallb sample_ok pets = true ->
  forall db : database,
    fold_left (insert_sample_pet now) pets (Ok db) =
    Ok (mkDb (users db)
          (animals db ++ sample_rows now (seq_animals db) pets)
          (adoption_applications db)
          (seq_users db)
          (seq_animals db + Z.of_nat (List.length pets))
          (seq_applications db)).
Proof.
  induction pets as [|pet pets IH]; intros Hok db.
  - cbn. rewrite app_nil_r, Z.add_0_r. destruct db; reflexivity.
  - cbn [forallb] in Hok. apply andb_prop in Hok. destruct Hok as [Hp Hps].
    cbn [fold_left]. rewrite (insert_sample_pet_ok now db pet Hp).
    rewrite (IH Hps). cbn [users animals adoption_applications seq_users
                           seq_animals seq_applications sample_rows].
    rewrite <- app_assoc. cbn [app List.length].
    rewrite Nat2Z.inj_succ.
    replace (seq_animals db + 1 + Z.of_nat (List.length pets))
      with (seq_animals db + Z.succ (Z.of_nat (List.length pets))) by lia.
    reflexivity.
Qed.

Lemma sample_pets_ok : forallb sample_ok sample_pets = true.
Proof. vm_compute. reflexivity. Qed.

Lemma insert_or_ignore_user_cases (u e hash kind now : string)
    (db : database) :
  mem_string kind ["admin"; "adopter"] = true ->
  (taken u e db = true
   /\ insert_or_ignore_user u e hash kind now db = skip_user_id db)
  \/ (taken u e db = false
      /\ insert_or_ignore_user u e hash kind now db =
         mkDb (users db ++ [mkUser (seq_users db + 1) u e hash kind now])
           (animals db) (adoption_applications db)
           (seq_users db + 1) (seq_animals db) (seq_applications db)).
Proof.
  intros Hk.
  unfold insert_or_ignore_user, insert_user, try_except, taken.
  cbn [not_null text_affinity bind]. unfold check. rewrite Hk.
  cbn [bind]. unfold unique.
  destruct (existsb (fun r => String.eqb (username r) u) (users db));
    [left; split; reflexivity|].
  cbn [bind].
  destruct (existsb (fun r => String.eqb (email r) e) (users db));
    [left; split; reflexivity|].
  right. split; reflexivity.
Qed.

Lemma insert_or_ignore_user_taken (u e hash kind now : string)
    (db : database) :
  taken u e db = true ->
  insert_or_ignore_user u e hash kind now db = skip_user_id db.
Proof.
  unfold insert_or_ignore_user, insert_user, try_except, taken.
  cbn [not_null text_affinity bind]. unfold check.
  destruct (mem_string kind ["admin"; "adopter"]); [|reflexivity].
  cbn [bind]. unfold unique.
  destruct (existsb (fun r => String.eqb (username r) u) (users db));
    [reflexivity|].
  cbn [bind].
  destruct (existsb (fun r => String.eqb (email r) e) (users db));
    [reflexivity|discriminate].
Qed.

Lemma skip_user_id_wf (db : database) : db_wf db -> db_wf (skip_user_id db).
Proof.
  intros [Hun Hem Hid Hseq Hty Haid Haseq Hach Hpid Hpseq Hpst Hs].
  constructor; cbn [skip_user_id users animals adoption_applications
                    seq_users seq_animals seq_applications]; try assumption.
  - eapply Forall_impl; [|exact Hseq]. cbn. intros r Hr. lia.
  - lia.
Qed.

Lemma insert_or_ignore_user_wf (u e hash kind now : string) (db : database) :
  db_wf db -> db_wf (insert_or_ignore_user u e hash kind now db).
Proof.
  intros Hwf. unfold insert_or_ignore_user, try_except.
  destruct (insert_user (SText u) (SText e) hash kind now db) as [db'|] eqn:H;
    [|exact (skip_user_id_wf db Hwf)].
  exact (insert_user_wf _ _ _ _ _ _ _ Hwf H).
Qed.

(** After [INSERT OR IGNORE] the name is taken, names taken before stay
    taken, only [users] can have grown, and one identifier is used up. *)
Lemma insert_or_ignore_user_effect (u e hash kind now : string)
    (db : database) :
  mem_string kind ["admin"; "adopter"] = true ->
  taken u e (insert_or_ignore_user u e hash kind now db) = true
  /\ (forall u' e', taken u' e' db = true ->
        taken u' e' (insert_or_ignore_user u e hash kind now db) = true)
  /\ (exists added,
        users (insert_or_ignore_user u e hash kind now db)
        = users db ++ added)
  /\ animals (insert_or_ignore_user u e hash kind now db) = animals db
  /\ adoption_applications (insert_or_ignore_user u e hash kind now db)
     = adoption_applications db
  /\ seq_animals (insert_or_ignore_user u e hash kind now db) = seq_animals db
  /\ seq_users (insert_or_ignore_user u e hash kind now db) = seq_users db + 1
  /\ seq_applications (insert_or_ignore_user u e hash kind now db)
     = seq_applications db.
Proof.
  intros Hk.
  destruct (insert_or_ignore_user_cases u e hash kind now db Hk)
    as [[Ht ->]|[Ht ->]].
  - split; [exact Ht|]. split; [auto|].
    split; [exists []; rewrite app_nil_r; reflexivity|].
    repeat split.
  - unfold taken. cbn [users animals adoption_applications seq_animals
                       seq_users seq_applications].
    split.
    + rewrite !existsb_app. cbn. rewrite !String.eqb_refl.
      rewrite !orb_true_r. reflexivity.
    + split.
      * intros u' e' H. rewrite !existsb_app.
        apply orb_prop in H. destruct H as [H|H]; rewrite H; cbn;
          rewrite ?orb_true_r; reflexivity.
      * split; [eexists; reflexivity|]. repeat split.
Qed.

(** What a run of [init_database] does, and what a second run does. *)
Lemma init_database_effect (now now' : string) (db : database) :
  exists db' : database,
    init_database now db = Ok db'
    /\ init_database now' db' =
       Ok (mkDb (users db') (animals db') (adoption_applications db')
             (seq_users db' + 2) (seq_animals db') (seq_applications db'))
    /\ (exists added, users db' = users db ++ added)
    /\ adoption_applications db' = adoption_applications db
    /\ seq_users db' = seq_users db + 2
    /\ (animals db <> [] -> animals db' = animals db)
    /\ (animals db = [] ->
        animals db' = sample_rows now (seq_animals db) sample_pets
        /\ map animal_species (animals db')
           = ["Dog"; "Dog"; "Dog"; "Dog"; "Dog"; "Dog"; "Dog";
              "Cat"; "Cat"; "Cat"; "Cat"; "Cat"]).
Proof.
  unfold init_database.
  set (h1 := sha256_hexdigest "admin123").
  set (h2 := sha256_hexdigest "user123").
  set (db1 := insert_or_ignore_user "admin" "admin@shelter.com" h1 "admin"
                now db).
  set (db2 := insert_or_ignore_user "user" "user@example.com" h2 "adopter"
                now db1).
  destruct (insert_or_ignore_user_effect "admin" "admin@shelter.com" h1
              "admin" now db eq_refl)
    as (Ht1 & _ & [add1 Hu1] & Ha1 & Hp1 & Hs1 & Hq1 & _).
  destruct (insert_or_ignore_user_effect "user" "user@example.com" h2
              "adopter" now db1 eq_refl)
    as (Ht2 & Hmono & [add2 Hu2] & Ha2 & Hp2 & Hs2 & Hq2 & _).
  fold db1 in Ht1, Hu1, Ha1, Hp1, Hs1, Hq1.
  fold db2 in Ht2, Hmono, Hu2, Ha2, Hp2, Hs2, Hq2.
  specialize (Hmono _ _ Ht1).
  assert (Hagain : forall db3 : database,
            users db3 = users db2 -> animals db3 <> [] ->
            (let a := insert_or_ignore_user "admin" "admin@shelter.com" h1
                        "admin" now' db3 in
             let b := insert_or_ignore_user "user" "user@example.com" h2
                        "adopter" now' a in
             if Z.of_nat (List.length (animals b)) =? 0
             then fold_left (insert_sample_pet now') sample_pets (Ok b)
             else Ok b)
            = Ok (mkDb (users db3) (animals db3) (adoption_applications db3)
                    (seq_users db3 + 2) (seq_animals db3)
                    (seq_applications db3))).
  { intros db3 Hu3 Hne. cbn zeta.
    assert (T1 : taken "admin" "admin@shelter.com" db3 = true)
      by (unfold taken in *; rewrite Hu3; exact Hmono).
    assert (T2 : taken "user" "user@example.com" (skip_user_id db3) = true)
      by (unfold taken in *; cbn [skip_user_id users]; rewrite Hu3; exact Ht2).
    rewrite (insert_or_ignore_user_taken _ _ h1 "admin" now' db3 T1).
    rewrite (insert_or_ignore_user_taken _ _ h2 "adopter" now' _ T2).
    unfold skip_user_id.
    cbn [users animals adoption_applications seq_users seq_animals
         seq_applications].
    destruct (animals db3) as [|r3 rows3]; [contradiction|].
    replace (seq_users db3 + 2) with (seq_users db3 + 1 + 1) by lia.
    reflexivity. }
  destruct (animals db) as [|r0 rows] eqn:Hanimals.
  - rewrite Ha2, Ha1. cbn [List.length Z.of_nat Z.eqb].
    rewrite (fold_insert_sample_pets now sample_pets sample_pets_ok db2).
    eexists. split; [reflexivity|].
    split.
    { apply Hagain; [reflexivity|].
      cbn [animals]. rewrite Ha2, Ha1. discriminate. }
    cbn [users animals adoption_applications seq_users].
    split; [exists (add1 ++ add2); rewrite Hu2, Hu1, app_assoc; reflexivity|].
    split; [rewrite Hp2, Hp1; reflexivity|].
    split; [rewrite Hq2, Hq1; lia|].
    split; [intros H; contradiction|].
    intros _. rewrite Ha2, Ha1, Hs2, Hs1. cbn [app].
    split; reflexivity.
  - rewrite Ha2, Ha1. cbn [List.length].
    rewrite Nat2Z.inj_succ.
    destruct (Z.eqb_spec (Z.succ (Z.of_nat (List.length rows))) 0); [lia|].
    exists db2. split; [reflexivity|].
    split.
    { apply Hagain; [reflexivity|]. rewrite Ha2, Ha1. discriminate. }
    split; [exists (add1 ++ add2); rewrite Hu2, Hu1, app_assoc; reflexivity|].
    split; [rewrite Hp2, Hp1; reflexivity|].
    split; [rewrite Hq2, Hq1; lia|].
    split; [intros _; rewrite Ha2, Ha1; reflexivity|].
    discriminate.
Qed.

(** X14: [init_database] never fails.  A run leaves the stored users,
    animals and applications in place, uses up two user identifiers, and
    adds the twelve sample pets, seven Dogs and five Cats, exactly when the
    animals table is empty.  A second run adds and changes no row: all it
    does is use up two more user identifiers, one for each ignored
    [INSERT OR IGNORE]. *)
Theorem init_database_seeds_once (now now' : string) (db : database) :
  exists db' : database,
    init_database now db = Ok db'
    /\ init_database now' db' =
       Ok (mkDb (users db') (animals db') (adoption_applications db')
             (seq_users db' + 2) (seq_animals db') (seq_applications db'))
    /\ (exists added, users db' = users db ++ added)
    /\ adoption_applications db' = adoption_applications db
    /\ seq_users db' = seq_users db + 2
    /\ (animals db <> [] -> animals db' = animals db)
    /\ (animals db = [] ->
        animals db' = sample_rows now (seq_animals db) sample_pets
        /\ map animal_species (animals db')
           = ["Dog"; "Dog"; "Dog"; "Dog"; "Dog"; "Dog"; "Dog";
              "Cat"; "Cat"; "Cat"; "Cat"; "Cat"]).
Proof. exact (init_database_effect now now' db). Qed.

Lemma fold_insert_sample_pets_raise (now : string) (pets : list sample_pet)
    (e : exn) :
  fold_left (insert_sample_pet now) pets (Raise e) = Raise e.
Proof.
  induction pets as [|pet pets IH]; [reflexivity|].
  cbn [fold_left].
  destruct pet as [[[[[[[[[[n s] b] c] age] g] v] a] w] d0] p].
  exact IH.
Qed.

Lemma fold_insert_sample_pets_wf (now : string) (pets : list sample_pet) :
  forall db d : database,
    db_wf db -> fold_left (insert_sample_pet now) pets (Ok db) = Ok d ->
    db_wf d.
Proof.
  induction pets as [|pet pets IH]; intros db d Hwf H.
  - cbn in H. injection H as <-. exact Hwf.
  - cbn [fold_left] in H.
    destruct (insert_sample_pet now (Ok db) pet) as [d1|e] eqn:H1.
    + apply (IH d1 d); [|exact H].
      destruct pet as [[[[[[[[[[n s] b] c] age] g] v] a] w] d0] p].
      cbn [insert_sample_pet bind] in H1.
      exact (insert_animal_wf _ _ _ _ _ _ _ _ _ _ _ _ _ _ Hwf H1).
    + rewrite fold_insert_sample_pets_raise in H. discriminate H.
Qed.

(** A run of [init_database] keeps [db_wf]. *)
Lemma init_database_wf (now : string)
    (db db' : database) :
  db_wf db -> init_database now db = Ok db' -> db_wf db'.
Proof.
  intros Hwf. unfold init_database.
  set (db2 := insert_or_ignore_user "user" "user@example.com" _ "adopter" now
                (insert_or_ignore_user "admin" "admin@shelter.com" _ "admin"
                   now db)).
  assert (Hwf2 : db_wf db2)
    by (apply insert_or_ignore_user_wf, insert_or_ignore_user_wf, Hwf).
  destruct (Z.of_nat (List.length (animals db2)) =? 0);
    [|intros H; injection H as <-; exact Hwf2].
  apply fold_insert_sample_pets_wf. exact Hwf2.
Qed.

(** X15: [init_database] keeps the schema's constraints; with [do_POST]
    keeping them too, they hold in every state reached from an empty
    file. *)
Theorem init_database_keeps_schema_constraints (now : string)
    (db db' : database) :
  db_wf db -> init_database now db = Ok db' -> db_wf db'.
Proof. exact (init_database_wf now db db'). Qed.

(** X16: on a database without users, [init_database] creates the two
    accounts that the start-up banner prints: [admin]/[admin123] signs in
    as admin and [user]/[user123] as adopter, with the first two
    identifiers; the admin credentials do not sign in as adopter. *)
Theorem seeded_accounts_sign_in (now : string) (db : database) :
  users db = [] ->
  exists db' : database,
    init_database now db = Ok db'
    /\ handle_login
         (JDict [("username", JStr "admin"); ("password", JStr "admin123");
                 ("user_type", JStr "admin")]) db'
       = Ok (JDict [("success", JBool true);
                    ("user", JDict [("id", JInt (seq_users db + 1));
                                    ("username", JStr "admin");
                                    ("email", JStr "admin@shelter.com");
                                    ("user_type", JStr "admin")])])
    /\ handle_login
         (JDict [("username", JStr "user"); ("password", JStr "user123");
                 ("user_type", JStr "adopter")]) db'
       = Ok (JDict [("success", JBool true);
                    ("user", JDict [("id", JInt (seq_users db + 1 + 1));
                                    ("username", JStr "user");
                                    ("email", JStr "user@example.com");
                                    ("user_type", JStr "adopter")])])
    /\ handle_login
         (JDict [("username", JStr "admin"); ("password", JStr "admin123");
                 ("user_type", JStr "adopter")]) db'
       = Ok (failure "Invalid credentials").
Proof.
  intros Hu.
  destruct (init_database_effect now now db) as (db' & Hinit & _).
  exists db'. split; [exact Hinit|].
  assert (Husers :
    users db' =
    [mkUser (seq_users db + 1) "admin" "admin@shelter.com"
       (sha256_hexdigest "admin123") "admin" now;
     mkUser (seq_users db + 1 + 1) "user" "user@example.com"
       (sha256_hexdigest "user123") "adopter" now]).
  { unfold init_database in Hinit.
    destruct (insert_or_ignore_user_cases "admin" "admin@shelter.com"
                (sha256_hexdigest "admin123") "admin" now db eq_refl)
      as [[Ht _]|[_ E1]];
      [unfold taken in Ht; rewrite Hu in Ht; discriminate Ht|].
    rewrite E1 in Hinit.
    match type of Hinit with
    | context [insert_or_ignore_user ?u ?e ?h ?k ?n ?d] =>
        destruct (insert_or_ignore_user_cases u e h k n d eq_refl)
          as [[Ht _]|[_ E2]]
    end;
      [unfold taken in Ht; cbn [users] in Ht; rewrite Hu in Ht;
       discriminate Ht|].
    rewrite E2 in Hinit. cbn [users animals seq_users] in Hinit.
    destruct (Z.of_nat (List.length (animals db)) =? 0).
    - rewrite (fold_insert_sample_pets now sample_pets sample_pets_ok) in Hinit.
      injection Hinit as <-. cbn [users]. rewrite Hu. reflexivity.
    - injection Hinit as <-. cbn [users]. rewrite Hu. reflexivity. }
  unfold handle_login.
  cbn [py_get assoc String.eqb Ascii.eqb Bool.eqb bind py_encode sql_bind
       text_eq text_affinity].
  rewrite Husers.
  cbn [find username password_hash user_type user_id email
       String.eqb Ascii.eqb Bool.eqb andb].
  rewrite !String.eqb_refl.
  repeat split.
Qed.

(** ** Which requests make a handler raise *)








Lemma reachable_wf (db : database) : reachable db -> db_wf db.
Proof.
  induction 1 as [|now db db' _ IH Hinit|now req db resp db' _ IH Hpost].
  - exact empty_db_wf.
  - exact (init_database_wf now db db' IH Hinit).
  - exact (do_POST_wf now req db resp db' IH Hpost).
Qed.

(** X23: in every state that the database reaches from an empty file
    through runs of [init_database] and POST requests that [do_POST]
    answers, every application is pending, so the page shows every request
    with the badge [bg-warning]: no request of the server sets another
    status, and the badges for approved and rejected requests are never
    used. *)
Theorem every_request_is_shown_pending (db : database) (r : application_row) :
  reachable db ->
  In r (adoption_applications db) ->
  status r = "pending" /\ statusClass (status r) = "bg-warning".
Proof.
  intros Hreach Hin.
  pose proof (wf_application_status db (reachable_wf db Hreach)) as H.
  rewrite Forall_forall in H. rewrite (H r Hin).
  split; reflexivity.
Qed.

End Handlers.

(** ** The theorems at concrete requests *)


Lemma login_without_password_escapes_witness :
  do_POST (fun s => s) sample_py_int (fun _ => Ok 0%float) sample_json_loads
    (fun _ => "") (fun v => v) (fun _ _ => false) "2024-05-02 10:00:00"
    (mkRequest "/api/login" (Some "43") login_body_without_password)
    one_user_db
  = Raise (mkExn AttributeError "'NoneType' object has no attribute 'encode'").
Proof.
  apply (login_without_password_escapes (fun s => s) sample_py_int
           (fun _ => Ok 0%float) sample_json_loads (fun _ => "") (fun v => v)
           (fun _ _ => false) "2024-05-02 10:00:00"
           (mkRequest "/api/login" (Some "43") login_body_without_password)
           one_user_db 43).
  - reflexivity.
  - reflexivity.
  - vm_compute. reflexivity.
Defined.

Lemma unknown_path_post_200_get_404_witness :
  do_POST (fun s => s) sample_py_int (fun _ => Ok 0%float) sample_json_loads
    (fun _ => "") (fun v => v) (fun _ _ => false) "2024-05-02 10:00:00"
    (mkRequest "/api/unknown" (Some "2") "{}") one_user_db
  = Ok (mkResponse 200 (Some "application/json")
          (JsonBody (JDict [("success", JBool false);
                            ("message", JStr "Unknown endpoint")])),
        one_user_db)
  /\ do_GET (mkRequest "/api/unknown" None "") one_pet_db
     = mkResponse 404 None NoBody.
Proof.
  pose proof (unknown_path_post_200_get_404 (fun s => s) sample_py_int
                (fun _ => Ok 0%float) sample_json_loads (fun _ => "")
                (fun v => v) (fun _ _ => false)) as [Hpost Hget].
  split.
  - apply (Hpost "2024-05-02 10:00:00"
             (mkRequest "/api/unknown" (Some "2") "{}") one_user_db 2
             (JDict [])).
    + simpl. intros H. repeat (destruct H as [H|H]; [discriminate H|]).
      exact H.
    + reflexivity.
    + reflexivity.
  - apply (Hget (mkRequest "/api/unknown" None "") one_pet_db).
    simpl. intros H. repeat (destruct H as [H|H]; [discriminate H|]).
    exact H.
Defined.

(** C7 fails for GET: a GET on the unknown path [/api/unknown] is answered
    with status 404 and an empty body, not with a 200-level status and the
    JSON body [{success: false, message: "Unknown endpoint"}]. *)
Lemma get_unknown_path_is_404 :
  ~ (200 <= status_code (do_GET (mkRequest "/api/unknown" None "") one_pet_db)
       <= 299
     /\ body (do_GET (mkRequest "/api/unknown" None "") one_pet_db)
        = JsonBody (JDict [("success", JBool false);
                           ("message", JStr "Unknown endpoint")])).
Proof.
  intros [[_ Hstatus] _]. vm_compute in Hstatus. apply Hstatus. reflexivity.
Qed.

(** ** The filters of the page *)

Section PageProperties.

Variable js_parseInt : string -> option Z.
Variable js_toLowerCase : string -> string.

Lemma filter_nothing {A : Type} (f : A -> bool) (l : list A) :
  (forall x, f x = false) -> filter f l = [].
Proof.
  intros H. induction l as [|x l IH]; cbn; [reflexivity|].
  rewrite H. exact IH.
Qed.

(** X20: a vaccination filter that is neither empty nor ["true"] nor
    ["false"] matches no pet, because the pets carry [vaccinated] as a
    boolean; the two choices that the control offers, ["1"] and ["0"], are
    such values, so choosing either one empties the list. *)
Theorem vaccinated_filter_matches_no_pet (f : filter_form)
    (allPets : list pet) :
  filterVaccinated f <> "" ->
  filterVaccinated f <> "true" ->
  filterVaccinated f <> "false" ->
  applyFilters js_parseInt js_toLowerCase f allPets = [].
Proof.
  intros He Ht Hf. unfold applyFilters. apply filter_nothing. intros p.
  assert (Hv : js_not (filterVaccinated f)
               || String.eqb (bool_toString (pet_vaccinated p))
                    (filterVaccinated f) = false).
  { unfold js_not. apply String.eqb_neq in He. rewrite He. cbn [orb].
    apply String.eqb_neq. destruct (pet_vaccinated p); cbn; congruence. }
  rewrite Hv. rewrite andb_false_r. reflexivity.
Qed.

(** X21: with the eight controls empty, [applyFilters] keeps exactly the
    pets whose age is between 0 and 999 months, in their order: a pet
    older than 999 months is hidden although no filter is set. *)
Theorem empty_filters_keep_ages_0_to_999 (allPets : list pet) :
  js_parseInt "" = None ->
  js_toLowerCase "" = "" ->
  applyFilters js_parseInt js_toLowerCase cleared allPets
  = filter (fun p => (0 <=? pet_age_months p) && (pet_age_months p <=? 999))
      allPets.
Proof.
  intros Hp Hl. unfold applyFilters, cleared, parseInt_or.
  cbn [filterSpecies filterBreed filterColor filterMinAge filterMaxAge
       filterGender filterVaccinated filterActivity].
  rewrite Hp, Hl. apply filter_ext. intros p.
  unfold js_not. cbn [String.eqb orb andb].
  rewrite Z.geb_leb, !andb_true_r. reflexivity.
Qed.

(** X22: a maximum age of 0 is no maximum: [parseInt] gives 0, which is
    falsy, so 999 is used, and the result is the one for an empty maximum
    age. *)
Theorem max_age_zero_is_no_limit (f : filter_form) (allPets : list pet) :
  js_parseInt (filterMaxAge f) = Some 0 ->
  js_parseInt "" = None ->
  applyFilters js_parseInt js_toLowerCase f allPets
  = applyFilters js_parseInt js_toLowerCase
      (mkFilters (filterSpecies f) (filterBreed f) (filterColor f)
         (filterMinAge f) "" (filterGender f) (filterVaccinated f)
         (filterActivity f)) allPets.
Proof.
  intros H0 Hn. unfold applyFilters, parseInt_or.
  cbn [filterSpecies filterBreed filterColor filterMinAge filterMaxAge
       filterGender filterVaccinated filterActivity].
  rewrite H0, Hn. reflexivity.
Qed.

End PageProperties.

(** ** The further properties at concrete requests *)

Lemma one_user_db_wf : db_wf one_user_db.
Proof.
  constructor; unfold one_user_db, admin_row; cbn;
    try (repeat constructor; cbn; lia).
Qed.

Lemma one_pet_db_wf : db_wf one_pet_db.
Proof.
  constructor; unfold one_pet_db, max_row; cbn;
    try (repeat constructor; cbn; lia).
Qed.

Lemma yard_and_beginner_matter_only_for_high_witness :
  score_pet (mkTraits "Cat" "Low" 30) (mkApplicant true false false JNull)
  = score_pet (mkTraits "Cat" "Low" 30) (mkApplicant false false false JNull)
  /\ score_pet (mkTraits "Cat" "Low" 30)
       (mkApplicant true false false (JStr "Beginner"))
     = score_pet (mkTraits "Cat" "Low" 30)
         (mkApplicant true false false (JStr "Intermediate")).
Proof.
  apply (yard_and_beginner_matter_only_for_high (mkTraits "Cat" "Low" 30)
           true false false false JNull).
  simpl. discriminate.
Defined.


Lemma do_POST_keeps_schema_constraints_witness :
  db_wf
    (mkDb [admin_row;
           mkUser 2 "sam" "sam@example.com" "pw" "adopter"
             "2024-05-02 10:00:00"] [] [] 2 0 0).
Proof.
  apply (do_POST_keeps_schema_constraints (fun s => s) form_py_int
           form_py_float form_json_loads (fun _ => "") (fun v => v)
           (fun _ _ => false) "2024-05-02 10:00:00"
           (mkRequest "/api/register" (Some "65") register_body) one_user_db
           (mkResponse 200 (Some "application/json") (JsonBody success))).
  - exact one_user_db_wf.
  - vm_compute. reflexivity.
Defined.

Lemma do_POST_answers_with_envelope_witness :
  status_code (mkResponse 200 (Some "application/json") (JsonBody success))
  = 200
  /\ content_type
       (mkResponse 200 (Some "application/json") (JsonBody success))
     = Some "application/json"
  /\ ((exists items,
         body (mkResponse 200 (Some "application/json") (JsonBody success))
         = JsonBody (JDict (("success", JBool true) :: items)))
      \/ (exists msg,
            body (mkResponse 200 (Some "application/json") (JsonBody success))
            = JsonBody (failure msg)
            /\ mkDb [admin_row;
                     mkUser 2 "sam" "sam@example.com" "pw" "adopter"
                       "2024-05-02 10:00:00"] [] [] 2 0 0
               = one_user_db)).
Proof.
  apply (do_POST_answers_with_envelope (fun s => s) form_py_int
           form_py_float form_json_loads (fun _ => "") (fun v => v)
           (fun _ _ => false) "2024-05-02 10:00:00"
           (mkRequest "/api/register" (Some "65") register_body) one_user_db).
  vm_compute. reflexivity.
Defined.


Lemma add_pet_missing_field_rejected_witness :
  exists msg : string,
    handle_add_pet form_py_int form_py_float (fun _ => "")
      "2024-05-02 10:00:00"
      (JDict [("name", JStr "Rex"); ("species", JStr "Dog")]) one_pet_db
    = (failure msg, one_pet_db).
Proof.
  apply (add_pet_missing_field_rejected form_py_int form_py_float
           (fun _ => "") "2024-05-02 10:00:00"
           [("name", JStr "Rex"); ("species", JStr "Dog")] one_pet_db "breed").
  - simpl. auto.
  - reflexivity.
Defined.



Lemma compatibility_check_scores_the_row_witness :
  exists a : applicant,
    read_applicant (JDict [("pet_id", JInt 1); ("has_yard", JStr "yes")])
    = Ok a
    /\ handle_compatibility_check (fun _ _ => false)
         (JDict [("pet_id", JInt 1); ("has_yard", JStr "yes")]) one_pet_db
       = Ok (compatibility_response
               (score_pet
                  (mkTraits (animal_species max_row)
                     (animal_activity_level max_row)
                     (animal_age_months max_row)) a))
    /\ In (animal_activity_level max_row) ["Low"; "Medium"; "High"].
Proof.
  apply (compatibility_check_scores_the_row (fun _ _ => false)
           [("pet_id", JInt 1); ("has_yard", JStr "yes")] one_pet_db max_row).
  - exact one_pet_db_wf.
  - simpl. left. reflexivity.
  - simpl. lia.
  - reflexivity.
Defined.

Lemma init_database_keeps_schema_constraints_witness :
  exists db' : database,
    init_database (fun s => s) (fun _ => "") "2024-05-01 09:00:00" empty_db
    = Ok db'
    /\ db_wf db'.
Proof.
  eexists. split.
  - vm_compute. reflexivity.
  - apply (init_database_keeps_schema_constraints (fun s => s) (fun _ => "")
             "2024-05-01 09:00:00" empty_db).
    + exact empty_db_wf.
    + vm_compute. reflexivity.
Defined.

Lemma seeded_accounts_sign_in_witness :
  exists db' : database,
    init_database (fun s => s) (fun _ => "") "2024-05-01 09:00:00" empty_db
    = Ok db'
    /\ handle_login (fun s => s) (fun _ => "")
         (JDict [("username", JStr "admin"); ("password", JStr "admin123");
                 ("user_type", JStr "admin")]) db'
       = Ok (JDict [("success", JBool true);
                    ("user", JDict [("id", JInt (seq_users empty_db + 1));
                                    ("username", JStr "admin");
                                    ("email", JStr "admin@shelter.com");
                                    ("user_type", JStr "admin")])])
    /\ handle_login (fun s => s) (fun _ => "")
         (JDict [("username", JStr "user"); ("password", JStr "user123");
                 ("user_type", JStr "adopter")]) db'
       = Ok (JDict [("success", JBool true);
                    ("user", JDict [("id", JInt (seq_users empty_db + 1 + 1));
                                    ("username", JStr "user");
                                    ("email", JStr "user@example.com");
                                    ("user_type", JStr "adopter")])])
    /\ handle_login (fun s => s) (fun _ => "")
         (JDict [("username", JStr "admin"); ("password", JStr "admin123");
                 ("user_type", JStr "adopter")]) db'
       = Ok (failure "Invalid credentials").
Proof.
  apply (seeded_accounts_sign_in (fun s => s) (fun _ => "")
           "2024-05-01 09:00:00" empty_db).
  reflexivity.
Defined.

Lemma vaccinated_filter_matches_no_pet_witness :
  applyFilters form_parseInt (fun s => s)
    (mkFilters "" "" "" "" "" "" "1" "") [pet_of_row max_row; old_pet]
  = [].
Proof.
  apply (vaccinated_filter_matches_no_pet form_parseInt (fun s => s)
           (mkFilters "" "" "" "" "" "" "1" "") [pet_of_row max_row; old_pet]);
    simpl; discriminate.
Defined.

Lemma empty_filters_keep_ages_0_to_999_witness :
  applyFilters form_parseInt (fun s => s) cleared [pet_of_row max_row; old_pet]
  = filter (fun p => (0 <=? pet_age_months p) && (pet_age_months p <=? 999))
      [pet_of_row max_row; old_pet].
Proof.
  apply (empty_filters_keep_ages_0_to_999 form_parseInt (fun s => s)
           [pet_of_row max_row; old_pet]); reflexivity.
Defined.

Lemma max_age_zero_is_no_limit_witness :
  applyFilters form_parseInt (fun s => s)
    (mkFilters "" "" "" "" "0" "" "" "") [pet_of_row max_row; old_pet]
  = applyFilters form_parseInt (fun s => s)
      (mkFilters "" "" "" "" "" "" "" "") [pet_of_row max_row; old_pet].
Proof.
  apply (max_age_zero_is_no_limit form_parseInt (fun s => s)
           (mkFilters "" "" "" "" "0" "" "" "") [pet_of_row max_row; old_pet]);
    reflexivity.
Defined.

Lemma huge_pet_id_escapes_witness :
  do_POST (fun s => s) (body_py_int huge_pet_id_body) (fun _ => Ok 0%float)
    (body_json_loads huge_pet_id_body (JDict [("pet_id", JInt (2 ^ 63))]))
    (fun _ => "") (fun v => v) (fun _ _ => false) "2024-05-02 10:00:00"
    (request_with_body "/api/ai/match" huge_pet_id_body) one_pet_db
  = Raise (mkExn OverflowError
             "Python int too large to convert to SQLite INTEGER").
Proof.
  apply (huge_pet_id_escapes (fun s => s) (body_py_int huge_pet_id_body)
           (fun _ => Ok 0%float)
           (body_json_loads huge_pet_id_body
              (JDict [("pet_id", JInt (2 ^ 63))]))
           (fun _ => "") (fun v => v) (fun _ _ => false)
           "2024-05-02 10:00:00"
           (request_with_body "/api/ai/match" huge_pet_id_body) one_pet_db
           (Z.of_nat (String.length huge_pet_id_body))).
  - reflexivity.
  - vm_compute. reflexivity.
  - vm_compute. reflexivity.
Defined.

Lemma every_request_is_shown_pending_witness :
  status (mkApplication 1 (SInt 2) (SInt 1) "user" "Max" "pending"
            "2024-05-02 10:00:00") = "pending"
  /\ statusClass
       (status (mkApplication 1 (SInt 2) (SInt 1) "user" "Max" "pending"
                  "2024-05-02 10:00:00")) = "bg-warning".
Proof.
  apply (every_request_is_shown_pending (fun s => s) (body_py_int adopt_body)
           (fun _ => Ok 0%float) (body_json_loads adopt_body adopt_request)
           (fun _ => "") (fun v => v) (fun _ _ => false)
           (mkDb [] []
              [mkApplication 1 (SInt 2) (SInt 1) "user" "Max" "pending"
                 "2024-05-02 10:00:00"] 0 0 1)
           (mkApplication 1 (SInt 2) (SInt 1) "user" "Max" "pending"
              "2024-05-02 10:00:00")).
  - apply (reach_post (fun s => s) (body_py_int adopt_body)
             (fun _ => Ok 0%float) (body_json_loads adopt_body adopt_request)
             (fun _ => "") (fun v => v) (fun _ _ => false)
             "2024-05-02 10:00:00" (request_with_body "/api/adopt" adopt_body)
             empty_db
             (mkResponse 200 (Some "application/json") (JsonBody success))).
    + apply reach_empty.
    + vm_compute. reflexivity.
  - simpl. left. reflexivity.
Defined.
